(** * GoogleAnalyticsUtils: a shallow embedding of [ga_universal.py]

    The module wraps the Google Analytics Reporting API v4: it sends one
    single-day report request ([get_report]), flattens the nested answer
    into a table ([parse_report]), writes a table to a CSV file
    ([list_to_csv_file]) and drives the three over a range of days
    ([get_batch_report]).

    Python values that travel through the code are JSON-like (the API
    answers in JSON); exceptions are explicit results; the side effects
    (log lines, API requests, file operations) are collected in order in
    a trace. *)

From Stdlib Require Import ZArith List String Ascii Bool Lia.
From Equations Require Import Equations.
Import ListNotations.
Open Scope string_scope.
Open Scope list_scope.
Open Scope Z_scope.

Set Implicit Arguments.
Set Warnings "-register-all".

(** ** Python values *)

(** The values the code handles: [None], booleans, integers, strings,
    lists and string-keyed dictionaries.  A dictionary keeps its
    insertion order, as Python's does; keys are unique in a dictionary
    built by the JSON decoder or by a dictionary display. *)
Inductive json : Type :=
| JNull
| JBool (b : bool)
| JNum (n : Z)
| JStr (s : string)
| JList (items : list json)
| JDict (fields : list (string * json)).

(** Python exceptions that the modelled code can meet. *)
Inductive exn : Type :=
| IndexError
| KeyError
| TypeError
| AttributeError
| OverflowError
| OSError
| CsvError
| HttpError (reason : string).

Inductive result (A : Type) : Type :=
| Ok (a : A)
| Raise (e : exn).
Arguments Ok {A} a.
Arguments Raise {A} e.

Definition rbind {A B} (r : result A) (f : A -> result B) : result B :=
  match r with
  | Ok a => f a
  | Raise e => Raise e
  end.

Fixpoint rmap {A B} (f : A -> result B) (xs : list A) : result (list B) :=
  match xs with
  | [] => Ok []
  | x :: rest =>
      rbind (f x) (fun y => rbind (rmap f rest) (fun ys => Ok (y :: ys)))
  end.

(** [d[k]] lookup in a dictionary, [None] when the key is absent. *)
Fixpoint dict_lookup (fields : list (string * json)) (key : string)
  : option json :=
  match fields with
  | [] => None
  | (k, v) :: rest => if String.eqb k key then Some v else dict_lookup rest key
  end.

(** [obj.get(key, default)]: only dictionaries have a [get] method. *)
Definition py_get (obj : json) (key : string) (default : json) : result json :=
  match obj with
  | JDict fields =>
      match dict_lookup fields key with
      | Some v => Ok v
      | None => Ok default
      end
  | _ => Raise AttributeError
  end.

Definition chars_of (s : string) : list json :=
  map (fun c => JStr (String c EmptyString)) (list_ascii_of_string s).

(** [obj[0]]. *)
Definition py_first (obj : json) : result json :=
  match obj with
  | JList (x :: _) => Ok x
  | JList [] => Raise IndexError
  | JStr (String c _) => Ok (JStr (String c EmptyString))
  | JStr EmptyString => Raise IndexError
  | JDict _ => Raise KeyError
  | _ => Raise TypeError
  end.

(** The items a [for] loop or a comprehension visits. *)
Definition py_iter (obj : json) : result (list json) :=
  match obj with
  | JList items => Ok items
  | JStr s => Ok (chars_of s)
  | JDict fields => Ok (map (fun kv => JStr (fst kv)) fields)
  | _ => Raise TypeError
  end.

(** [a + b] where the result is used as a list: both operands have to be
    lists, every other combination ends in a [TypeError] either at this
    [+] or at the following one, whose right operand is a list. *)
Definition py_list_add (a b : json) : result json :=
  match a, b with
  | JList xs, JList ys => Ok (JList (xs ++ ys))
  | _, _ => Raise TypeError
  end.

(** [a == b]: structural, except that [True == 1] and [False == 0], and
    that dictionaries compare without regard to order. *)
Fixpoint py_eq (a b : json) {struct a} : bool :=
  match a, b with
  | JNull, JNull => true
  | JBool x, JBool y => Bool.eqb x y
  | JBool x, JNum n => Z.eqb (Z.b2z x) n
  | JNum n, JBool y => Z.eqb n (Z.b2z y)
  | JNum n, JNum m => Z.eqb n m
  | JStr s, JStr t => String.eqb s t
  | JList xs, JList ys =>
      (fix items (xs ys : list json) {struct xs} : bool :=
         match xs, ys with
         | [], [] => true
         | x :: xs', y :: ys' => py_eq x y && items xs' ys'
         | _, _ => false
         end) xs ys
  | JDict xs, JDict ys =>
      Nat.eqb (List.length xs) (List.length ys) &&
      (fix fields (xs : list (string * json)) {struct xs} : bool :=
         match xs with
         | [] => true
         | (k, v) :: xs' =>
             match dict_lookup ys k with
             | Some w => py_eq v w
             | None => false
             end && fields xs'
         end) xs
  | _, _ => false
  end.

(** ** Strings *)

(** [s.replace(old, new)] for a non-empty [old]: the occurrences of [old]
    are found from left to right without overlap.  [skip] counts the
    characters of the occurrence under the cursor that are still to be
    dropped. *)
Fixpoint replace_from (old new : string) (skip : nat) (s : string) : string :=
  match s with
  | EmptyString => EmptyString
  | String c rest =>
      match skip with
      | S k => replace_from old new k rest
      | O =>
          if String.prefix old s
          then (new ++
                replace_from old new (Nat.pred (String.length old)) rest)%string
          else String c (replace_from old new O rest)
      end
  end.

Definition str_replace (s old new : string) : string :=
  replace_from old new O s.

(** [obj.replace(old, new)]: only strings have the method. *)
Definition py_replace (obj : json) (old new : string) : result json :=
  match obj with
  | JStr s => Ok (JStr (str_replace s old new))
  | _ => Raise AttributeError
  end.


Example replace_ex1 : str_replace "ga:country" "ga:" EmptyString = "country".
Proof. reflexivity. Qed.

Example replace_ex2 : str_replace "gga:a:x" "ga:" EmptyString = "ga:x".
Proof. reflexivity. Qed.

(** ** Calendar dates *)

(** [datetime.date]: a day of the proleptic Gregorian calendar between
    0001-01-01 and 9999-12-31.  The constructor refuses anything else, so
    every [date] value is a valid day. *)

Definition MINYEAR : Z := 1.
Definition MAXYEAR : Z := 9999.

Definition is_leap (y : Z) : bool :=
  (y mod 4 =? 0) && (negb (y mod 100 =? 0) || (y mod 400 =? 0)).

Definition days_in_month (y m : Z) : Z :=
  match m with
  | 1 => 31
  | 2 => if is_leap y then 29 else 28
  | 3 => 31
  | 4 => 30
  | 5 => 31
  | 6 => 30
  | 7 => 31
  | 8 => 31
  | 9 => 30
  | 10 => 31
  | 11 => 30
  | 12 => 31
  | _ => 0
  end.

(** Days in the year [y] before the first of month [m]. *)
Definition days_before_month (y m : Z) : Z :=
  let leap := if is_leap y then 1 else 0 in
  match m with
  | 1 => 0
  | 2 => 31
  | 3 => 59 + leap
  | 4 => 90 + leap
  | 5 => 120 + leap
  | 6 => 151 + leap
  | 7 => 181 + leap
  | 8 => 212 + leap
  | 9 => 243 + leap
  | 10 => 273 + leap
  | 11 => 304 + leap
  | 12 => 334 + leap
  | _ => 0
  end.

(** Days before January 1st of year [y]. *)
Definition days_before_year (y : Z) : Z :=
  let p := y - 1 in
  p * 365 + p / 4 - p / 100 + p / 400.

Definition valid_ymd (y m d : Z) : bool :=
  (MINYEAR <=? y) && (y <=? MAXYEAR) &&
  (1 <=? m) && (m <=? 12) &&
  (1 <=? d) && (d <=? days_in_month y m).

Record date : Type := mkdate {
  year : Z;
  month : Z;
  day : Z;
  date_valid : valid_ymd year month day = true
}.

Definition checked_date (y m d : Z) (b : bool)
  : valid_ymd y m d = b -> option date :=
  match b with
  | true => fun ok => Some (mkdate y m d ok)
  | false => fun _ => None
  end.

(** [date(y, m, d)]; [None] stands for the constructor's refusal. *)
Definition make_date (y m d : Z) : option date :=
  checked_date y m d eq_refl.

(** [d.toordinal()]: 0001-01-01 is day 1. *)
Definition toordinal (d : date) : Z :=
  days_before_year (year d) + days_before_month (year d) (month d) + day d.

(** [a <= b]: dates compare as the tuples (year, month, day). *)
Definition date_leb (a b : date) : bool :=
  (year a <? year b) ||
  ((year a =? year b) &&
   ((month a <? month b) ||
    ((month a =? month b) && (day a <=? day b)))).

(** The day after (y, m, d), as a triple. *)
Definition next_ymd (y m d : Z) : Z * Z * Z :=
  if d <? days_in_month y m then (y, m, d + 1)
  else if m <? 12 then (y, m + 1, 1)
  else (y + 1, 1, 1).

(** [d + timedelta(days=1)]: the next day, [OverflowError] after
    9999-12-31. *)
Definition add_one_day (d : date) : result date :=
  let '(y, m, n) := next_ymd (year d) (month d) (day d) in
  match make_date y m n with
  | Some d' => Ok d'
  | None => Raise OverflowError
  end.

Definition digit_char (n : Z) : ascii := ascii_of_nat (48 + Z.to_nat n).

(** [n] in decimal, on [width] digits with leading zeros. *)
Fixpoint zero_pad (width : nat) (n : Z) : string :=
  match width with
  | O => EmptyString
  | S k =>
      (zero_pad k (n / 10)
       ++ String (digit_char (n mod 10)) EmptyString)%string
  end.

(** The number of decimal digits of a year between 1 and 9999. *)
Definition year_width (y : Z) : nat :=
  if y <? 10 then 1 else if y <? 100 then 2 else if y <? 1000 then 3 else 4.

(** [d.strftime(fmt)] for the directives the code uses.  [%Y] is the year
    in decimal as the C library renders it, without leading zeros: "2024"
    for 2024 and "5" for the year 5; [%m] and [%d] are the month and the
    day on two digits; any other character is copied. *)
Fixpoint strftime (d : date) (fmt : string) : string :=
  match fmt with
  | EmptyString => EmptyString
  | String "%" (String "Y" rest) =>
      (zero_pad (year_width (year d)) (year d) ++ strftime d rest)%string
  | String "%" (String "m" rest) =>
      (zero_pad 2 (month d) ++ strftime d rest)%string
  | String "%" (String "d" rest) =>
      (zero_pad 2 (day d) ++ strftime d rest)%string
  | String c rest => String c (strftime d rest)
  end.

Definition date_2024_01_01 : date := mkdate 2024 1 1 eq_refl.
Definition date_2024_01_02 : date := mkdate 2024 1 2 eq_refl.
Definition date_2024_01_03 : date := mkdate 2024 1 3 eq_refl.

Example strftime_ex1 : strftime date_2024_01_01 "%Y-%m-%d" = "2024-01-01".
Proof. reflexivity. Qed.

Example strftime_ex2 : strftime date_2024_01_03 "%Y%m%d" = "20240103".
Proof. reflexivity. Qed.

Example toordinal_ex : toordinal date_2024_01_01 = 738886.
Proof. reflexivity. Qed.

Example strftime_ex3 :
  strftime (mkdate 5 3 7 eq_refl) "%Y%m%d" = "50307" /\
  strftime (mkdate 999 1 1 eq_refl) "%Y-%m-%d" = "999-01-01".
Proof. split; reflexivity. Qed.

Example add_one_day_ex : add_one_day date_2024_01_01 = Ok date_2024_01_02.
Proof. reflexivity. Qed.

Example add_one_day_max :
  add_one_day (mkdate 9999 12 31 eq_refl) = Raise OverflowError.
Proof. reflexivity. Qed.

(** *** Facts about dates *)

Lemma checked_date_fields (y m d : Z) (b : bool)
  (e : valid_ymd y m d = b) (x : date) :
  checked_date y m d e = Some x -> year x = y /\ month x = m /\ day x = d.
Proof.
  destruct b; simpl; intros H; [| discriminate].
  injection H as <-. auto.
Qed.

Lemma make_date_fields (y m d : Z) (x : date) :
  make_date y m d = Some x -> year x = y /\ month x = m /\ day x = d.
Proof. apply checked_date_fields. Qed.

Lemma checked_date_valid (y m d : Z) (b : bool) (e : valid_ymd y m d = b) :
  b = true -> exists x, checked_date y m d e = Some x.
Proof. intros ->. simpl. eauto. Qed.

Lemma make_date_valid (y m d : Z) :
  valid_ymd y m d = true -> exists x, make_date y m d = Some x.
Proof. apply checked_date_valid. Qed.

Lemma date_ext (a b : date) :
  year a = year b -> month a = month b -> day a = day b -> a = b.
Proof.
  destruct a as [y m d va], b as [y' m' d' vb]; simpl.
  intros -> -> ->. f_equal.
  apply Eqdep_dec.UIP_dec, bool_dec.
Qed.

Lemma valid_ymd_bounds (y m d : Z) :
  valid_ymd y m d = true ->
  1 <= y <= 9999 /\ 1 <= m <= 12 /\ 1 <= d <= days_in_month y m.
Proof.
  unfold valid_ymd, MINYEAR, MAXYEAR.
  rewrite !andb_true_iff, !Z.leb_le. lia.
Qed.

Lemma date_bounds (d : date) :
  1 <= year d <= 9999 /\ 1 <= month d <= 12 /\
  1 <= day d <= days_in_month (year d) (month d).
Proof. apply valid_ymd_bounds, date_valid. Qed.

Lemma month_cases (m : Z) :
  1 <= m <= 12 ->
  m = 1 \/ m = 2 \/ m = 3 \/ m = 4 \/ m = 5 \/ m = 6 \/
  m = 7 \/ m = 8 \/ m = 9 \/ m = 10 \/ m = 11 \/ m = 12.
Proof. lia. Qed.

Ltac split_month m :=
  let H := fresh in
  match goal with
  | B : 1 <= m <= 12 |- _ => pose proof (month_cases B) as H
  end;
  repeat (destruct H as [H | H]); rewrite H in *.

Lemma days_before_next_month (y m : Z) :
  1 <= m < 12 ->
  days_before_month y (m + 1) = days_before_month y m + days_in_month y m.
Proof.
  intros B. assert (B' : 1 <= m <= 12) by lia.
  split_month m; try lia;
    unfold days_before_month, days_in_month; simpl;
    destruct (is_leap y); reflexivity.
Qed.

Lemma days_before_next_year (y : Z) :
  days_before_year (y + 1) =
  days_before_year y + days_before_month y 12 + 31.
Proof.
  unfold days_before_year, days_before_month, is_leap.
  replace (y + 1 - 1) with y by lia.
  destruct (y mod 4 =? 0) eqn:E4; destruct (y mod 100 =? 0) eqn:E100;
    destruct (y mod 400 =? 0) eqn:E400; simpl;
    rewrite ?Z.eqb_eq, ?Z.eqb_neq in *;
    Z.div_mod_to_equations; lia.
Qed.

Lemma toordinal_add_one_day (d d' : date) :
  add_one_day d = Ok d' -> toordinal d' = toordinal d + 1.
Proof.
  unfold add_one_day, next_ymd, toordinal.
  pose proof (date_bounds d) as (By & Bm & Bd).
  destruct (day d <? days_in_month (year d) (month d)) eqn:Ed.
  - destruct (make_date _ _ _) as [x |] eqn:Ex; [| discriminate].
    intros [= ->]. apply make_date_fields in Ex as (-> & -> & ->). lia.
  - apply Z.ltb_ge in Ed.
    destruct (month d <? 12) eqn:Em.
    + apply Z.ltb_lt in Em.
      destruct (make_date _ _ _) as [x |] eqn:Ex; [| discriminate].
      intros [= ->]. apply make_date_fields in Ex as (-> & -> & ->).
      rewrite days_before_next_month by lia. lia.
    + apply Z.ltb_ge in Em.
      destruct (make_date _ _ _) as [x |] eqn:Ex; [| discriminate].
      intros [= ->]. apply make_date_fields in Ex as (-> & -> & ->).
      rewrite days_before_next_year.
      assert (month d = 12) as Hm by lia. rewrite Hm in *.
      unfold days_in_month in Bd, Ed. unfold days_before_month.
      destruct (is_leap _); lia.
Qed.

Lemma days_before_year_mono (y y' : Z) :
  y <= y' -> days_before_year y <= days_before_year y'.
Proof.
  unfold days_before_year. intros H. Z.div_mod_to_equations. lia.
Qed.

Lemma day_of_year_upper (y m d : Z) :
  1 <= m <= 12 -> d <= days_in_month y m ->
  days_before_month y m + d <= days_before_month y 12 + 31.
Proof.
  intros B. split_month m;
    unfold days_before_month, days_in_month; destruct (is_leap y); lia.
Qed.

Lemma day_of_year_mono (y m m' d : Z) :
  1 <= m -> m < m' -> m' <= 12 -> d <= days_in_month y m ->
  days_before_month y m + d <= days_before_month y m'.
Proof.
  intros B1 B2 B3.
  assert (B : 1 <= m <= 12) by lia. assert (B' : 1 <= m' <= 12) by lia.
  split_month m; split_month m'; try lia;
    unfold days_before_month, days_in_month; destruct (is_leap y); lia.
Qed.

(** The order on dates as the order of the (year, month, day) tuples. *)
Definition date_lt_lex (a b : date) : Prop :=
  year a < year b \/
  (year a = year b /\
   (month a < month b \/ (month a = month b /\ day a < day b))).

Lemma toordinal_lt_lex (a b : date) :
  date_lt_lex a b -> toordinal a < toordinal b.
Proof.
  unfold date_lt_lex, toordinal.
  pose proof (date_bounds a) as (Ya & Ma & Da).
  pose proof (date_bounds b) as (Yb & Mb & Db).
  intros [Hy | (Hy & [Hm | (Hm & Hd)])].
  - pose proof (day_of_year_upper (year a) Ma (proj2 Da)).
    pose proof (days_before_next_year (year a)).
    pose proof (@days_before_year_mono (year a + 1) (year b) ltac:(lia)).
    assert (0 <= days_before_month (year b) (month b)).
    { split_month (month b); unfold days_before_month;
        destruct (is_leap (year b)); lia. }
    lia.
  - rewrite Hy in *.
    pose proof (@day_of_year_mono (year b) (month a) (month b) (day a)
                  ltac:(lia) Hm ltac:(lia) ltac:(lia)).
    lia.
  - rewrite Hy, Hm. lia.
Qed.

Lemma date_leb_lex (a b : date) :
  date_leb a b = true <-> (a = b \/ date_lt_lex a b).
Proof.
  unfold date_leb, date_lt_lex.
  rewrite !orb_true_iff, !andb_true_iff, !orb_true_iff, !andb_true_iff,
    !Z.ltb_lt, !Z.eqb_eq, Z.leb_le.
  split.
  - intros [H | (Hy & [H | (Hm & Hd)])]; auto.
    destruct (Z.eq_dec (day a) (day b)) as [E | E].
    + left. apply date_ext; assumption.
    + right. right. split; [assumption |]. right. lia.
  - intros [-> | H]; [right; lia |].
    destruct H as [H | (Hy & [H | (Hm & Hd)])]; auto.
    right. split; [assumption |]. right. lia.
Qed.

(** Dates are ordered as their ordinals are. *)
Lemma date_leb_toordinal (a b : date) :
  date_leb a b = true <-> toordinal a <= toordinal b.
Proof.
  rewrite date_leb_lex. split.
  - intros [-> | H]; [lia |]. apply toordinal_lt_lex in H. lia.
  - intros H.
    destruct (Z.lt_trichotomy (year a) (year b)) as [Hy | [Hy | Hy]].
    + right. left. assumption.
    + destruct (Z.lt_trichotomy (month a) (month b)) as [Hm | [Hm | Hm]].
      * right. right. auto.
      * destruct (Z.lt_trichotomy (day a) (day b)) as [Hd | [Hd | Hd]].
        -- right. right. auto.
        -- left. apply date_ext; assumption.
        -- assert (date_lt_lex b a) as L by (right; auto).
           apply toordinal_lt_lex in L. lia.
      * assert (date_lt_lex b a) as L by (right; auto).
        apply toordinal_lt_lex in L. lia.
    + assert (date_lt_lex b a) as L by (left; assumption).
      apply toordinal_lt_lex in L. lia.
Qed.

(** Every day but the last has a next day. *)
Lemma add_one_day_defined (d : date) :
  toordinal d < toordinal (mkdate 9999 12 31 eq_refl) ->
  exists d', add_one_day d = Ok d'.
Proof.
  intros H.
  assert (L : ~ (year d = 9999 /\ month d = 12 /\ day d = 31)).
  { intros (Hy & Hm & Hd).
    assert (d = mkdate 9999 12 31 eq_refl) as E
        by (apply date_ext; assumption).
    rewrite E in H. lia. }
  pose proof (date_bounds d) as (By & Bm & Bd).
  unfold add_one_day, next_ymd.
  assert (V : forall y m n, valid_ymd y m n = true ->
              exists d', match make_date y m n with
                         | Some d' => Ok d'
                         | None => Raise OverflowError
                         end = Ok d').
  { intros y m n Hv. destruct (make_date_valid _ _ _ Hv) as [x ->]. eauto. }
  destruct (day d <? days_in_month (year d) (month d)) eqn:Ed.
  - apply Z.ltb_lt in Ed. apply V. unfold valid_ymd, MINYEAR, MAXYEAR.
    rewrite !andb_true_iff, !Z.leb_le. lia.
  - apply Z.ltb_ge in Ed. destruct (month d <? 12) eqn:Em.
    + apply Z.ltb_lt in Em. apply V. unfold valid_ymd, MINYEAR, MAXYEAR.
      rewrite !andb_true_iff, !Z.leb_le.
      assert (1 <= days_in_month (year d) (month d + 1)).
      { assert (B : 1 <= month d + 1 <= 12) by lia. revert B.
        generalize (month d + 1). intros m B. split_month m;
          unfold days_in_month; destruct (is_leap (year d)); lia. }
      lia.
    + apply Z.ltb_ge in Em. apply V. unfold valid_ymd, MINYEAR, MAXYEAR.
      rewrite !andb_true_iff, !Z.leb_le.
      assert (month d = 12) as Hm by lia. rewrite Hm in *.
      unfold days_in_month in *. simpl. lia.
Qed.

(** ** Effects *)

(** What the outside world sees of a run, in order: log lines, requests
    sent to the Reporting API, operations on files. *)
Inductive level : Type := DEBUG | INFO | ERROR.

Inductive event : Type :=
| Log (lvl : level) (msg : string)
| LogException (msg : string) (e : exn)
| ApiRequest (body : json)
| FileOpen (path : string)
| FileWrite (path : string) (data : string)
| FileClose (path : string).

(** A computation yields the events it caused and either a value or the
    exception that stopped it. *)
Definition M (A : Type) : Type := (list event * result A)%type.

Definition ret {A} (a : A) : M A := ([], Ok a).

Definition raise {A} (e : exn) : M A := ([], Raise e).

Definition lift {A} (r : result A) : M A := ([], r).

Definition emit (ev : event) : M unit := ([ev], Ok tt).

Definition bind {A B} (m : M A) (f : A -> M B) : M B :=
  match m with
  | (t, Ok a) => let (t', r) := f a in (t ++ t', r)
  | (t, Raise e) => (t, Raise e)
  end.

(** [try: m except Exception as e: handler e]. *)
Definition try_except {A} (m : M A) (handler : exn -> M A) : M A :=
  match m with
  | (t, Ok a) => (t, Ok a)
  | (t, Raise e) => let (t', r) := handler e in (t ++ t', r)
  end.

Definition trace {A} (m : M A) : list event := fst m.
Definition outcome {A} (m : M A) : result A := snd m.

Declare Scope monad_scope.
Delimit Scope monad_scope with monad.
Notation "x <- m ;; k" := (bind m (fun x => k))
  (at level 61, m at next level, right associativity) : monad_scope.
Notation "m ;; k" := (bind m (fun _ => k))
  (at level 61, right associativity) : monad_scope.
Open Scope monad_scope.

(** [for x in xs: f(k, x)], [k] counting from [start]. *)
Fixpoint for_each {A} (f : nat -> A -> M unit) (start : nat) (xs : list A)
  : M unit :=
  match xs with
  | [] => ret tt
  | x :: rest => f start x ;; for_each f (S start) rest
  end.

(** How the file system treats a path: all operations succeed, or
    [open] fails, or the write of row number [row] fails, or [close]
    fails.  A failing operation raises [OSError]. *)
Inductive fs_fault : Type :=
| NoFault
| OpenFails
| WriteFails (row : nat)
| CloseFails.

(** ** CSV text *)

Definition quote_char : ascii := "034"%char.
Definition line_terminator : string :=
  String "013"%char (String "010"%char EmptyString).

Fixpoint double_quotes (s : string) : string :=
  match s with
  | EmptyString => EmptyString
  | String c rest =>
      if Ascii.eqb c quote_char
      then String c (String c (double_quotes rest))
      else String c (double_quotes rest)
  end.

(** A field under [QUOTE_ALL]. *)
Definition quoted (s : string) : string :=
  String quote_char (double_quotes s ++ String quote_char EmptyString)%string.

Fixpoint join (sep : ascii) (xs : list string) : string :=
  match xs with
  | [] => EmptyString
  | [x] => x
  | x :: rest => (x ++ String sep (join sep rest))%string
  end.

(** One record of the file: the quoted fields, the delimiter between
    them, the line terminator after them. *)
Definition csv_line (delimiter : ascii) (fields : list string) : string :=
  (join delimiter (map quoted fields) ++ line_terminator)%string.

Record csv_writer_t : Type := mkwriter {
  writer_file : string;
  writer_delimiter : ascii
}.

Section GoogleAnalyticsUtils.

(** The authorized service object: what
    [service.reports().batchGet(body=...).execute()] answers. *)
Variable service : json -> result json.

(** The file system of the run. *)
Variable fs : string -> fs_fault.

(** [str(v)] for the values that are neither strings nor [None]. *)
Variable py_str : json -> string.

Definition log (lvl : level) (msg : string) : M unit := emit (Log lvl msg).

Definition execute (body : json) : M json :=
  emit (ApiRequest body) ;; lift (service body).

(** [open(path, "w", newline="")]. *)
Definition open_w (path : string) : M unit :=
  match fs path with
  | OpenFails => raise OSError
  | _ => emit (FileOpen path)
  end.

Definition file_write (path : string) (row : nat) (data : string) : M unit :=
  match fs path with
  | WriteFails n =>
      if Nat.eqb n row then raise OSError else emit (FileWrite path data)
  | _ => emit (FileWrite path data)
  end.

Definition file_close (path : string) : M unit :=
  match fs path with
  | CloseFails => raise OSError
  | _ => emit (FileClose path)
  end.

(** [csv.writer(file, delimiter=delimiter, quoting=csv.QUOTE_ALL)]: the
    delimiter has to be a one-character string. *)
Definition csv_writer (path delimiter : string) : M csv_writer_t :=
  match delimiter with
  | String c EmptyString => ret (mkwriter path c)
  | _ => raise TypeError
  end.

Definition field_text (v : json) : string :=
  match v with
  | JStr s => s
  | JNull => EmptyString
  | _ => py_str v
  end.

(** The fields of a row handed to the writer: a row has to be iterable. *)
Definition row_fields (row : json) : result (list string) :=
  match py_iter row with
  | Ok items => Ok (map field_text items)
  | Raise _ => Raise CsvError
  end.

(** [writer.writerow(row)], as the row number [k] of the file. *)
Definition writerow (w : csv_writer_t) (k : nat) (row : json) : M unit :=
  fields <- lift (row_fields row) ;;
  file_write (writer_file w) k (csv_line (writer_delimiter w) fields).

(** [writer.writerows(rows)]. *)
Definition writerows (w : csv_writer_t) (rows : list json) : M unit :=
  for_each (writerow w) O rows.

(** ** The methods of [GoogleAnalyticsUtils] *)

Definition get_report (view_id : string) (report_date : date)
  (dimensions metrics : list json) (sampling : string) : M json :=
  let report_date := strftime report_date "%Y-%m-%d" in
  let dimensions := map (fun dimension => JDict [("name", dimension)])
                        dimensions in
  let metrics := map (fun metric => JDict [("expression", metric)]) metrics in
  log INFO ("[GAUtils.get_report] getting report for " ++ report_date)%string ;;
  execute
    (JDict
       [("reportRequests",
         JList
           [JDict
              [("viewId", JStr view_id);
               ("dateRanges",
                JList [JDict [("startDate", JStr report_date);
                              ("endDate", JStr report_date)]]);
               ("metrics", JList metrics);
               ("dimensions", JList dimensions);
               ("samplingLevel", JStr sampling);
               ("pageSize", JNum 100000)]])]).

(** [report.get("reports", [])[0]]. *)
Definition first_report (report : json) : result json :=
  rbind (py_get report "reports" (JList [])) py_first.

(** [name.replace("ga:", "")], the stripping of a header name. *)
Definition strip_name (name : json) : result json :=
  py_replace name "ga:" EmptyString.

(** [[x.replace("ga:", "") for x in names]]. *)
Definition strip_names (names : list json) : result (list json) :=
  rmap strip_name names.

(** One row of the table:
    [row.get("dimensions") + row.get("metrics", [])[0].get("values")
     + [view_id]]. *)
Definition table_row (view_id : string) (row : json) : result json :=
  rbind (py_get row "dimensions" JNull) (fun dims =>
  rbind (py_get row "metrics" (JList [])) (fun sets =>
  rbind (py_first sets) (fun set0 =>
  rbind (py_get set0 "values" JNull) (fun values =>
  rbind (py_list_add dims values) (fun cells =>
  py_list_add cells (JList [JStr view_id])))))).

(** The part of [parse_report] after the first report is picked. *)
Definition report_table (report : json) (view_id : string)
  : result (list json) :=
  rbind (py_get report "columnHeader" (JDict [])) (fun columnHeader =>
  rbind (py_get columnHeader "dimensions" (JList [])) (fun dimensionHeaders =>
  rbind (py_get columnHeader "metricHeader" (JDict [])) (fun metricHeader =>
  rbind (py_get metricHeader "metricHeaderEntries" (JList []))
    (fun metricHeaders =>
  rbind (rbind (py_iter dimensionHeaders) strip_names)
    (fun dimensionHeaders =>
  rbind (rbind (py_iter metricHeaders)
           (rmap (fun metric =>
                    rbind (py_get metric "name" JNull) strip_name)))
    (fun metricHeaders =>
  let headers := dimensionHeaders ++ metricHeaders ++ [JStr "view_id"] in
  rbind (py_get report "data" (JDict [])) (fun data =>
  rbind (py_get data "rows" (JList [])) (fun rows =>
  rbind (py_iter rows) (fun rows =>
  rbind (rmap (table_row view_id) rows) (fun body =>
  Ok (JList headers :: body))))))))))).

Definition parse_report (report : json) (view_id : string) : M (list json) :=
  report <- lift (first_report report) ;;
  log INFO "[GAUtils.get_report] parsing report" ;;
  lift (report_table report view_id).

(** The body of the [try] block of [list_to_csv_file]. *)
Definition write_csv (filename : string) (content : list json)
  (delimiter : string) (extraction_date : json) : M unit :=
  log INFO ("[GAUtils.download] saving report to " ++ filename)%string ;;
  open_w filename ;;
  writer <- csv_writer filename delimiter ;;
  match extraction_date with
  | JNull => writerows writer content
  | _ =>
      for_each
        (fun k line =>
           header <- lift (py_first (JList content)) ;;
           newline <- lift
             (if py_eq line header
              then py_list_add (JList [JStr "Extraction Date"]) line
              else py_list_add (JList [extraction_date]) line) ;;
           writerow writer k newline)
        O content
  end ;;
  file_close filename.

Definition list_to_csv_file (filename : string) (content : list json)
  (delimiter : string) (extraction_date : json) : M string :=
  try_except
    (write_csv filename content delimiter extraction_date)
    (fun e =>
       emit (LogException
               "[GAUtil.list_to_csv] Error creating temp csv file" e)) ;;
  ret filename.

(** One turn of the loop of [get_batch_report], up to the file; the
    writer is called without [delimiter] and [extraction_date], which
    take their defaults [","] and [None]. *)
Definition batch_iteration (view_id report_name : string)
  (dimensions metrics : list json) (sampling : string) (current_date : date)
  : M string :=
  let formated_date := strftime current_date "%Y%m%d" in
  log DEBUG ("Downloading report for view " ++ view_id ++ " at "
             ++ formated_date)%string ;;
  report <- get_report view_id current_date dimensions metrics sampling ;;
  report <- parse_report report view_id ;;
  list_to_csv_file
    ("./files/" ++ report_name ++ "_" ++ formated_date ++ ".csv")%string
    report "," JNull.

(** A value together with the fact that it is the value of [a]. *)
Definition inspect {A : Type} (a : A) : {b : A | a = b} := exist _ a eq_refl.

(** The loop [while end_date >= current_date: ...;
    current_date += timedelta(days=1)]; it terminates because every turn
    moves [current_date] one day closer to the day after [end_date]. *)
Equations? batch_loop (view_id report_name : string) (end_date : date)
  (dimensions metrics : list json) (sampling : string) (current_date : date)
  : M unit
  by wf (Z.to_nat (toordinal end_date + 1 - toordinal current_date)) lt :=
batch_loop view_id report_name end_date dimensions metrics sampling
  current_date with inspect (date_leb current_date end_date) := {
  | exist _ true running =>
      bind (batch_iteration view_id report_name dimensions metrics sampling
              current_date)
        (fun file =>
           match add_one_day current_date as r
                 return add_one_day current_date = r -> M unit with
           | Ok next => fun advanced =>
               batch_loop view_id report_name end_date dimensions metrics
                 sampling next
           | Raise e => fun _ => raise e
           end eq_refl);
  | exist _ false _ => ret tt }.
Proof.
  apply date_leb_toordinal in running.
  apply toordinal_add_one_day in advanced. lia.
Qed.

Definition get_batch_report (view_id : string) (schema : list json)
  (report_name : string) (start_date end_date : date)
  (dimensions metrics : list json) (sampling : string) : M unit :=
  batch_loop view_id report_name end_date dimensions metrics sampling
    start_date.

End GoogleAnalyticsUtils.

(** * Properties *)

(** ** The monad *)

Lemma bind_ok {A B} (m : M A) (f : A -> M B) (a : A) :
  outcome m = Ok a ->
  bind m f = (trace m ++ trace (f a), outcome (f a)).
Proof.
  destruct m as [t r]; simpl. intros ->. simpl.
  destruct (f a); reflexivity.
Qed.

Lemma bind_raise {A B} (m : M A) (f : A -> M B) (e : exn) :
  outcome m = Raise e -> bind m f = (trace m, Raise e).
Proof. destruct m as [t r]; simpl. intros ->. reflexivity. Qed.

Lemma bind_lift_ok {A B} (r : result A) (f : A -> M B) (a : A) :
  r = Ok a -> bind (lift r) f = f a.
Proof. intros ->. unfold bind, lift. simpl. destruct (f a); reflexivity. Qed.

Lemma bind_lift_raise {A B} (r : result A) (f : A -> M B) (e : exn) :
  r = Raise e -> bind (lift r) f = raise e.
Proof. intros ->. reflexivity. Qed.

Lemma bind_emit {B} (ev : event) (f : unit -> M B) :
  bind (emit ev) f = (ev :: trace (f tt), outcome (f tt)).
Proof. unfold bind, emit. destruct (f tt); reflexivity. Qed.

Lemma in_trace_bind {A B} (m : M A) (f : A -> M B) (ev : event) :
  In ev (trace (bind m f)) ->
  In ev (trace m) \/ exists a, outcome m = Ok a /\ In ev (trace (f a)).
Proof.
  destruct m as [t [a | e]]; simpl.
  - destruct (f a) as [t' r] eqn:E; simpl. rewrite in_app_iff.
    intros [H | H]; [left; assumption |].
    right. exists a. rewrite E. auto.
  - auto.
Qed.

(** ** Header stripping *)

(** The stripping applied to one header name. *)
Definition strip (name : string) : string := str_replace name "ga:" EmptyString.

Lemma strip_names_strings (xs : list string) :
  strip_names (map JStr xs) = Ok (map JStr (map strip xs)).
Proof.
  induction xs as [| x xs IH]; [reflexivity |].
  unfold strip_names in *. simpl. rewrite IH. reflexivity.
Qed.






(** ** The shape of an answer of the Reporting API *)

(** [fields.get(key, default)] on a dictionary. *)
Definition field_or (fields : list (string * json)) (key : string)
  (default : json) : json :=
  match dict_lookup fields key with
  | Some v => v
  | None => default
  end.

Lemma py_get_dict (fields : list (string * json)) (key : string)
  (default : json) :
  py_get (JDict fields) key default = Ok (field_or fields key default).
Proof. unfold py_get, field_or. destruct (dict_lookup _ _); reflexivity. Qed.

(** What a report says: the names of its dimension and metric columns and,
    for every data row, the dimension values and the values of the first
    metric-value set. *)
Record report_content : Type := mkcontent {
  dimension_names : list string;
  metric_names : list string;
  data_rows : list (list json * list json)
}.

(** An entry of [metricHeaderEntries] that names the metric [name]. *)
Definition metric_entry (name : string) (entry : json) : Prop :=
  exists fields,
    entry = JDict fields /\ dict_lookup fields "name" = Some (JStr name).

(** A row of [data.rows] with the given dimension values and first
    metric-value set. *)
Definition data_row (cells : list json * list json) (row : json) : Prop :=
  exists fields set0 more,
    row = JDict fields /\
    dict_lookup fields "dimensions" = Some (JList (fst cells)) /\
    dict_lookup fields "metrics" = Some (JList (JDict set0 :: more)) /\
    dict_lookup set0 "values" = Some (JList (snd cells)).

(** A report entry of the documented shape
    [columnHeader.{dimensions, metricHeader.metricHeaderEntries}],
    [data.rows[].{dimensions, metrics[0].values}]; the sections that the
    code reads with a default may be absent. *)
Definition report_shape (report : json) (c : report_content) : Prop :=
  exists fields header metric_header entries data rows,
    report = JDict fields /\
    field_or fields "columnHeader" (JDict []) = JDict header /\
    field_or header "dimensions" (JList [])
      = JList (map JStr (dimension_names c)) /\
    field_or header "metricHeader" (JDict []) = JDict metric_header /\
    field_or metric_header "metricHeaderEntries" (JList []) = JList entries /\
    Forall2 metric_entry (metric_names c) entries /\
    field_or fields "data" (JDict []) = JDict data /\
    field_or data "rows" (JList []) = JList rows /\
    Forall2 data_row (data_rows c) rows.

(** A raw response with at least one report entry, the first of the
    shape above. *)
Definition response_shape (response : json) (c : report_content) : Prop :=
  exists fields report others,
    response = JDict fields /\
    dict_lookup fields "reports" = Some (JList (report :: others)) /\
    report_shape report c.

(** The header row and the table that the claims describe. *)
Definition header_row (c : report_content) : list json :=
  map JStr (map strip (dimension_names c) ++ map strip (metric_names c)
            ++ ["view_id"]).

Definition table_of (c : report_content) (view_id : string) : list json :=
  JList (header_row c)
  :: map (fun cells => JList (fst cells ++ snd cells ++ [JStr view_id]))
       (data_rows c).

(** The answer to a query with dimensions=["country"],
    metrics=["sessions"] and one data row ("US", "42"). *)
Definition country_sessions_response : json :=
  JDict
    [("reports",
      JList
        [JDict
           [("columnHeader",
             JDict
               [("dimensions", JList [JStr "ga:country"]);
                ("metricHeader",
                 JDict
                   [("metricHeaderEntries",
                     JList [JDict [("name", JStr "ga:sessions");
                                   ("type", JStr "INTEGER")]])])]);
            ("data",
             JDict
               [("rows",
                 JList
                   [JDict [("dimensions", JList [JStr "US"]);
                           ("metrics",
                            JList [JDict [("values", JList [JStr "42"])]])]]);
                ("rowCount", JNum 1)])]])].

Definition country_sessions_content : report_content :=
  mkcontent ["ga:country"] ["ga:sessions"] [([JStr "US"], [JStr "42"])].

Lemma country_sessions_shape :
  response_shape country_sessions_response country_sessions_content.
Proof.
  do 3 eexists. split; [reflexivity |]. split; [reflexivity |].
  do 6 eexists. repeat split; try reflexivity.
  - constructor; [| constructor]. eexists. split; reflexivity.
  - constructor; [| constructor]. do 3 eexists. repeat split; reflexivity.
Qed.

Lemma metric_names_read (names : list string) (entries : list json) :
  Forall2 metric_entry names entries ->
  rmap (fun metric => rbind (py_get metric "name" JNull) strip_name) entries
    = Ok (map JStr (map strip names)).
Proof.
  induction 1 as [| n e ns es (fields & -> & L) _ IH]; [reflexivity |].
  simpl. rewrite L, IH. reflexivity.
Qed.

Lemma table_rows_read (view_id : string) (cells : list (list json * list json))
  (rows : list json) :
  Forall2 data_row cells rows ->
  rmap (table_row view_id) rows
    = Ok (map (fun c => JList (fst c ++ snd c ++ [JStr view_id])) cells).
Proof.
  induction 1 as [| c r cs rs (fields & set0 & more & -> & D & S & V) _ IH];
    [reflexivity |].
  simpl. unfold table_row at 1. simpl. rewrite D, S. simpl. rewrite V. simpl.
  rewrite IH. simpl. rewrite <- app_assoc. reflexivity.
Qed.

Lemma report_table_shape (report : json) (view_id : string)
  (c : report_content) :
  report_shape report c ->
  report_table report view_id = Ok (table_of c view_id).
Proof.
  intros (fields & header & mh & entries & data & rows &
          -> & H1 & H2 & H3 & H4 & H5 & H6 & H7 & H8).
  unfold report_table.
  rewrite !py_get_dict, H1, H6. cbn [rbind].
  rewrite !py_get_dict, H2, H3, H7. cbn [rbind].
  rewrite py_get_dict, H4. cbn [rbind py_iter].
  rewrite strip_names_strings, (metric_names_read H5). cbn [rbind].
  rewrite (table_rows_read view_id H8). cbn [rbind].
  unfold table_of, header_row. rewrite !map_app. reflexivity.
Qed.

Lemma parse_report_shape (response : json) (view_id : string)
  (c : report_content) :
  response_shape response c ->
  parse_report response view_id
    = ([Log INFO "[GAUtils.get_report] parsing report"],
       Ok (table_of c view_id)).
Proof.
  intros (fields & report & others & -> & R & S).
  unfold parse_report, first_report. rewrite py_get_dict.
  unfold field_or. rewrite R. simpl.
  rewrite (report_table_shape view_id S). reflexivity.
Qed.

(** X19: on a response with at least one report, the first of the API's
    shape, every data row with a "dimensions" list and a first
    metric-value set, [parse_report] returns the header row (stripped dimension
    names, stripped metric names, "view_id") followed by one row per data
    row, in the provider's order: dimension values, values of the first
    metric-value set, the view id.  Without data rows the table is the
    header row alone, and the country/sessions answer with the row
    ("US", "42") gives the table of the example. *)
Theorem parse_report_table (response : json) (view_id : string)
  (c : report_content) (shaped : response_shape response c) :
  outcome (parse_report response view_id)
    = Ok (JList (map JStr (map strip (dimension_names c)
                           ++ map strip (metric_names c) ++ ["view_id"]))
          :: map (fun cells =>
                    JList (fst cells ++ snd cells ++ [JStr view_id]))
               (data_rows c)) /\
  (data_rows c = [] ->
   outcome (parse_report response view_id) = Ok [JList (header_row c)]) /\
  outcome (parse_report country_sessions_response view_id)
    = Ok [JList [JStr "country"; JStr "sessions"; JStr "view_id"];
          JList [JStr "US"; JStr "42"; JStr view_id]].
Proof.
  rewrite (parse_report_shape view_id shaped).
  rewrite (parse_report_shape view_id country_sessions_shape).
  repeat split.
  intros E. simpl. unfold table_of. rewrite E. reflexivity.
Qed.

Lemma parse_report_table_witness :
  response_shape country_sessions_response country_sessions_content /\
  outcome (parse_report country_sessions_response "12345678")
    = Ok [JList [JStr "country"; JStr "sessions"; JStr "view_id"];
          JList [JStr "US"; JStr "42"; JStr "12345678"]].
Proof.
  split; [exact country_sessions_shape |].
  exact (proj1 (parse_report_table "12345678" country_sessions_shape)).
Defined.

(** A response whose data rows carry one value per dimension column and
    one metric value per metric column. *)
Definition rectangular (c : report_content) : Prop :=
  Forall (fun cells =>
            List.length (fst cells) = List.length (dimension_names c) /\
            List.length (snd cells) = List.length (metric_names c))
    (data_rows c).

(** X20: on a response of the API's shape whose data rows carry a
    "dimensions" list with one value per dimension column and one metric
    value per metric column, the table has the header (one cell per
    dimension, one per metric and one more) and one row per data row,
    each as long as the header. *)
Theorem parse_report_rectangular (response : json) (view_id : string)
  (c : report_content) (shaped : response_shape response c)
  (valid : rectangular c) :
  let header :=
    map JStr (map strip (dimension_names c) ++ map strip (metric_names c)
              ++ ["view_id"]) in
  let body :=
    map (fun cells => fst cells ++ snd cells ++ [JStr view_id])
      (data_rows c) in
  outcome (parse_report response view_id)
    = Ok (JList header :: map JList body) /\
  List.length header
    = (List.length (dimension_names c)
       + List.length (metric_names c) + 1)%nat /\
  List.length body = List.length (data_rows c) /\
  Forall (fun row => List.length row = List.length header) body.
Proof.
  cbv zeta. rewrite (parse_report_shape view_id shaped). simpl.
  split; [| split; [| split]].
  - unfold table_of, header_row. rewrite map_map. reflexivity.
  - rewrite length_map, !length_app, !length_map. simpl. lia.
  - apply length_map.
  - apply Forall_map. unfold rectangular in valid.
    eapply Forall_impl; [| exact valid].
    intros [ds vs] [Hd Hv]; simpl in *.
    rewrite length_map, !length_app, !length_map, Hd, Hv. simpl. lia.
Qed.

Lemma parse_report_rectangular_witness :
  response_shape country_sessions_response country_sessions_content /\
  rectangular country_sessions_content /\
  outcome (parse_report country_sessions_response "12345678")
    = Ok [JList [JStr "country"; JStr "sessions"; JStr "view_id"];
          JList [JStr "US"; JStr "42"; JStr "12345678"]] /\
  List.length [JStr "country"; JStr "sessions"; JStr "view_id"] = 3%nat.
Proof.
  assert (valid : rectangular country_sessions_content)
    by (repeat constructor).
  destruct (parse_report_rectangular "12345678" country_sessions_shape valid)
    as (T & L & _ & _).
  split; [exact country_sessions_shape |]. split; [exact valid |].
  split; [exact T | exact L].
Defined.

(** C8: without a report entry ("reports" absent or empty) [parse_report]
    stops with the error of the indexing [[0]] and returns no table;
    with at least one entry the indexing yields the first report and the
    run goes on to the header and the rows. *)
Theorem parse_report_reports_entry (fields : list (string * json))
  (view_id : string) :
  match dict_lookup fields "reports" with
  | None | Some (JList []) =>
      parse_report (JDict fields) view_id = ([], Raise IndexError)
  | Some (JList (report :: _)) =>
      first_report (JDict fields) = Ok report /\
      parse_report (JDict fields) view_id
        = ([Log INFO "[GAUtils.get_report] parsing report"],
           report_table report view_id)
  | Some _ => True
  end.
Proof.
  unfold parse_report, first_report. simpl.
  destruct (dict_lookup fields "reports") as [[| | | | [| r rs] |] |];
    simpl; auto.
Qed.

(** ** The request of [get_report] *)

(** The bodies of the requests sent to the API, in order. *)
Definition requests (t : list event) : list json :=
  flat_map (fun ev => match ev with ApiRequest body => [body] | _ => [] end) t.

(** A service that answers every request with the same response. *)
Definition fixed_service (response : json) : json -> result json :=
  fun _ => Ok response.

(** C3, as the claim states it, fails: the identifiers "country" and
    "sessions" are sent as they are, without the "ga:" prefix. *)
Lemma get_report_names_not_qualified :
  exists request,
    requests (trace (get_report (fixed_service country_sessions_response)
                       "12345678" date_2024_01_01
                       [JStr "country"] [JStr "sessions"] "LARGE"))
      = [JDict [("reportRequests", JList [request])]] /\
    py_get request "dimensions" JNull
      = Ok (JList [JDict [("name", JStr "country")]]) /\
    py_get request "dimensions" JNull
      <> Ok (JList [JDict [("name", JStr "ga:country")]]) /\
    py_get request "metrics" JNull
      = Ok (JList [JDict [("expression", JStr "sessions")]]) /\
    py_get request "metrics" JNull
      <> Ok (JList [JDict [("expression", JStr "ga:sessions")]]).
Proof.
  eexists. split; [reflexivity |].
  repeat split; try reflexivity; discriminate.
Qed.

(** C3 (amended): [get_report] sends one request; its body holds one
    report request with the single-day range [date, date], the page size
    100000, the view id and the sampling level given, and every
    dimension and metric identifier wrapped as it was supplied, under
    "name" and "expression"; the answer of the service is returned as it
    is. *)
Theorem get_report_request (service : json -> result json)
  (view_id : string) (report_date : date) (dimensions metrics : list json)
  (sampling : string) :
  exists request,
    requests (trace (get_report service view_id report_date dimensions
                       metrics sampling))
      = [JDict [("reportRequests", JList [request])]] /\
    py_get request "viewId" JNull = Ok (JStr view_id) /\
    py_get request "dateRanges" JNull
      = Ok (JList
              [JDict
                 [("startDate", JStr (strftime report_date "%Y-%m-%d"));
                  ("endDate", JStr (strftime report_date "%Y-%m-%d"))]]) /\
    py_get request "pageSize" JNull = Ok (JNum 100000) /\
    py_get request "samplingLevel" JNull = Ok (JStr sampling) /\
    py_get request "dimensions" JNull
      = Ok (JList (map (fun d => JDict [("name", d)]) dimensions)) /\
    py_get request "metrics" JNull
      = Ok (JList (map (fun m => JDict [("expression", m)]) metrics)) /\
    outcome (get_report service view_id report_date dimensions metrics
               sampling)
      = service (JDict [("reportRequests", JList [request])]).
Proof.
  eexists. split; [reflexivity | repeat split].
Qed.

(** ** The CSV writer *)

Lemma bind_ok_inv {A B} (m : M A) (f : A -> M B) (b : B) :
  outcome (bind m f) = Ok b ->
  exists a, outcome m = Ok a /\ outcome (f a) = Ok b /\
            trace (bind m f) = trace m ++ trace (f a).
Proof.
  destruct m as [t [a | e]]; simpl; [| discriminate].
  destruct (f a) as [t' r] eqn:E; simpl. intros ->.
  exists a. rewrite E. auto.
Qed.

Lemma bind_ret {A B} (a : A) (f : A -> M B) : bind (ret a) f = f a.
Proof. unfold bind, ret. destruct (f a); reflexivity. Qed.

Lemma outcome_bind_raise {A B} (m : M A) (f : A -> M B) (e : exn) :
  outcome m = Raise e -> outcome (bind m f) = Raise e.
Proof. intros H. rewrite (bind_raise _ _ H). reflexivity. Qed.

Lemma in_trace_try_except {A} (m : M A) (h : exn -> M A) (ev : event) :
  In ev (trace (try_except m h)) ->
  In ev (trace m) \/ exists e, outcome m = Raise e /\ In ev (trace (h e)).
Proof.
  destruct m as [t [a | e]]; simpl; [auto |].
  destruct (h e) as [t' r] eqn:E; simpl. rewrite in_app_iff.
  intros [H | H]; [auto |]. right. exists e. rewrite E. auto.
Qed.

Definition error_message : string :=
  "[GAUtil.list_to_csv] Error creating temp csv file".

(** A row that is a Python list. *)
Definition list_row (row : json) : Prop := exists cells, row = JList cells.

Section Writer.

Variable fs : string -> fs_fault.
Variable py_str : json -> string.

Lemma try_block_returns (body : M unit) (filename : string) :
  outcome (try_except body (fun e => emit (LogException error_message e)) ;;
           ret filename) = Ok filename.
Proof. destruct body as [t [[] | e]]; reflexivity. Qed.

Lemma try_block_trace (body : M unit) (filename : string) :
  trace (try_except body (fun e => emit (LogException error_message e)) ;;
         ret filename)
  = match outcome body with
    | Ok _ => trace body
    | Raise e => trace body ++ [LogException error_message e]
    end.
Proof.
  destruct body as [t [[] | e]]; simpl; rewrite app_nil_r; reflexivity.
Qed.

Lemma file_close_last (m : M unit) (path : string) :
  outcome (m ;; file_close fs path) = Ok tt ->
  exists t, trace (m ;; file_close fs path) = t ++ [FileClose path].
Proof.
  intros H. apply bind_ok_inv in H as (a & _ & C & ->).
  exists (trace m). f_equal. revert C. unfold file_close.
  destruct (fs path); simpl; intros C; try reflexivity; discriminate.
Qed.

Lemma write_csv_closes (filename : string) (content : list json)
  (delimiter : string) (extraction_date : json) :
  outcome (write_csv fs py_str filename content delimiter extraction_date)
    = Ok tt ->
  exists t,
    trace (write_csv fs py_str filename content delimiter extraction_date)
      = t ++ [FileClose filename].
Proof.
  unfold write_csv. intros H.
  apply bind_ok_inv in H as (? & _ & H & ->).
  apply bind_ok_inv in H as (? & _ & H & ->).
  apply bind_ok_inv in H as (w & _ & H & ->).
  apply file_close_last in H as (t & ->).
  eexists. rewrite !app_assoc. reflexivity.
Qed.

Lemma write_csv_open_fails (filename : string) (content : list json)
  (delimiter : string) (extraction_date : json) :
  fs filename = OpenFails ->
  write_csv fs py_str filename content delimiter extraction_date
    = ([Log INFO ("[GAUtils.download] saving report to " ++ filename)],
       Raise OSError).
Proof.
  intros H. unfold write_csv, log, open_w. rewrite bind_emit, H. reflexivity.
Qed.

(** A loop that writes one row per item stops with [OSError] at the row
    whose write fails. *)
Lemma for_each_write_fails (path : string) (f : nat -> json -> M unit)
  (k : nat) (rows : list json) :
  fs path = WriteFails k ->
  (forall i row, In row rows ->
     exists data, f i row = file_write fs path i data) ->
  forall start, (start <= k < start + List.length rows)%nat ->
  outcome (for_each f start rows) = Raise OSError.
Proof.
  intros F W. induction rows as [| row rows IH]; intros start B.
  - simpl in B. lia.
  - simpl. destruct (W start row (or_introl eq_refl)) as [data ->].
    unfold file_write. rewrite F.
    destruct (Nat.eqb k start) eqn:E; [reflexivity |].
    apply Nat.eqb_neq in E. rewrite bind_emit. simpl.
    apply IH.
    + intros i r Hr. apply W. right. assumption.
    + simpl in B. lia.
Qed.

Lemma writerow_list (w : csv_writer_t) (k : nat) (cells : list json) :
  writerow fs py_str w k (JList cells)
  = file_write fs (writer_file w) k
      (csv_line (writer_delimiter w) (map (field_text py_str) cells)).
Proof.
  unfold writerow, row_fields. simpl.
  destruct (file_write _ _ _ _); reflexivity.
Qed.

Lemma write_csv_write_fails (filename : string) (content : list json)
  (delimiter : ascii) (extraction_date : json) (k : nat) :
  fs filename = WriteFails k ->
  (k < List.length content)%nat ->
  Forall list_row content ->
  outcome (write_csv fs py_str filename content
             (String delimiter EmptyString) extraction_date)
    = Raise OSError.
Proof.
  intros F B L. unfold write_csv, log, open_w, csv_writer.
  rewrite bind_emit, F, bind_emit, bind_ret. cbn [outcome snd].
  apply outcome_bind_raise. rewrite Forall_forall in L.
  assert (W : forall i row, In row content ->
                exists data,
                  writerow fs py_str (mkwriter filename delimiter) i row
                    = file_write fs filename i data).
  { intros i row Hr. destruct (L row Hr) as [cells ->].
    rewrite writerow_list. eauto. }
  destruct extraction_date;
    try (eapply for_each_write_fails; [exact F | | lia];
         intros i row Hr; destruct (L row Hr) as [cells ->];
         destruct content as [| h rest]; [contradiction |];
         cbn [py_first]; rewrite (bind_lift_ok _ eq_refl);
         destruct (py_eq (JList cells) h); cbn [py_list_add];
         rewrite (bind_lift_ok _ eq_refl), writerow_list; eauto).
  eapply for_each_write_fails; [exact F | exact W | lia].
Qed.

(** C6: [list_to_csv_file] returns the file name it was given on every
    path.  Either the block ran to the closing of the file, or an
    exception was caught and logged as the last event; a failing [open]
    and a failing write of a row are two such cases. *)
Theorem list_to_csv_file_returns_filename (filename : string)
  (content : list json) (delimiter : string) (extraction_date : json) :
  let run :=
    list_to_csv_file fs py_str filename content delimiter extraction_date in
  outcome run = Ok filename /\
  ((exists t, trace run = t ++ [FileClose filename]) \/
   (exists t e, trace run = t ++ [LogException error_message e])) /\
  (fs filename = OpenFails ->
   trace run
     = [Log INFO ("[GAUtils.download] saving report to " ++ filename);
        LogException error_message OSError]) /\
  (forall k c,
     fs filename = WriteFails k -> (k < List.length content)%nat ->
     Forall list_row content -> delimiter = String c EmptyString ->
     exists t, trace run = t ++ [LogException error_message OSError]).
Proof.
  unfold list_to_csv_file. fold error_message. cbv zeta.
  split; [apply try_block_returns |].
  rewrite try_block_trace. split; [| split].
  - destruct (outcome (write_csv _ _ _ _ _ _)) as [[] | e] eqn:E.
    + left. apply write_csv_closes, E.
    + right. eauto.
  - intros H. rewrite write_csv_open_fails by exact H. reflexivity.
  - intros k c F B L ->.
    rewrite write_csv_write_fails with (k := k) by assumption. eauto.
Qed.

Lemma in_trace_file_write (path : string) (k : nat) (data : string)
  (ev : event) :
  In ev (trace (file_write fs path k data)) -> ev = FileWrite path data.
Proof.
  unfold file_write.
  destruct (fs path) as [| | n |]; try destruct (Nat.eqb n k); simpl;
    intros H; try contradiction;
    (destruct H as [H | H]; [symmetry; exact H | contradiction]).
Qed.

Lemma in_trace_writerow (w : csv_writer_t) (k : nat) (row : json)
  (ev : event) :
  In ev (trace (writerow fs py_str w k row)) ->
  exists fields,
    row_fields py_str row = Ok fields /\
    ev = FileWrite (writer_file w) (csv_line (writer_delimiter w) fields).
Proof.
  unfold writerow. destruct (row_fields py_str row) as [fields | e] eqn:E.
  - rewrite (bind_lift_ok _ eq_refl). intros H.
    apply in_trace_file_write in H. eauto.
  - simpl. contradiction.
Qed.

Lemma in_trace_writerows (w : csv_writer_t) (rows : list json) (ev : event) :
  In ev (trace (writerows fs py_str w rows)) ->
  exists row fields,
    In row rows /\ row_fields py_str row = Ok fields /\
    ev = FileWrite (writer_file w) (csv_line (writer_delimiter w) fields).
Proof.
  unfold writerows. generalize O.
  induction rows as [| row rows IH]; intros k; simpl; [contradiction |].
  intros H. apply in_trace_bind in H as [H | (_ & _ & H)].
  - apply in_trace_writerow in H as (fields & F & ->).
    exists row, fields. auto.
  - apply IH in H as (r & fields & I & F & ->).
    exists r, fields. auto.
Qed.

(** Without an extraction date every record of the file is a row of the
    table, field for field, with the delimiter between the fields. *)
Lemma list_to_csv_file_plain_rows (filename : string) (content : list json)
  (delimiter : string) (path data : string) :
  In (FileWrite path data)
     (trace (list_to_csv_file fs py_str filename content delimiter JNull)) ->
  exists c row fields,
    path = filename /\ delimiter = String c EmptyString /\
    In row content /\ row_fields py_str row = Ok fields /\
    data = csv_line c fields.
Proof.
  unfold list_to_csv_file. intros H.
  apply in_trace_bind in H as [H | (_ & _ & [])].
  apply in_trace_try_except in H as [H | (e & _ & [H | []])];
    [| discriminate].
  unfold write_csv, log in H.
  apply in_trace_bind in H as [[H | []] | (_ & _ & H)]; [discriminate |].
  apply in_trace_bind in H as [H | (_ & _ & H)].
  { unfold open_w in H. destruct (fs filename); simpl in H;
      try contradiction; destruct H as [H | []]; discriminate. }
  apply in_trace_bind in H as [H | (w & W & H)].
  { unfold csv_writer in H. destruct delimiter as [| c [| ? ?]];
      simpl in H; contradiction. }
  assert (exists c, delimiter = String c EmptyString /\ w = mkwriter filename c)
    as (c & -> & ->).
  { unfold csv_writer in W. destruct delimiter as [| c [| ? ?]];
      simpl in W; try discriminate. injection W as <-. eauto. }
  apply in_trace_bind in H as [H | (_ & _ & H)].
  - apply in_trace_writerows in H as (row & fields & I & F & E).
    injection E as -> ->. exists c, row, fields. auto.
  - unfold file_close in H. destruct (fs filename); simpl in H;
      try contradiction; destruct H as [H | []]; discriminate.
Qed.

End Writer.

(** A file system on which every operation succeeds, one on which no file
    can be opened, and a rendering of the values that are not strings. *)
Definition no_faults : string -> fs_fault := fun _ => NoFault.
Definition read_only : string -> fs_fault := fun _ => OpenFails.
Definition blank_str : json -> string := fun _ => EmptyString.

Lemma list_to_csv_file_returns_filename_witness :
  read_only "./files/report_20240101.csv" = OpenFails /\
  outcome (list_to_csv_file read_only blank_str "./files/report_20240101.csv"
             [JList [JStr "country"]; JList [JStr "US"]] "," JNull)
    = Ok "./files/report_20240101.csv" /\
  trace (list_to_csv_file read_only blank_str "./files/report_20240101.csv"
           [JList [JStr "country"]; JList [JStr "US"]] "," JNull)
    = [Log INFO
         "[GAUtils.download] saving report to ./files/report_20240101.csv";
       LogException error_message OSError].
Proof.
  destruct (list_to_csv_file_returns_filename read_only blank_str
              "./files/report_20240101.csv"
              [JList [JStr "country"]; JList [JStr "US"]] "," JNull)
    as (R & _ & O & _).
  split; [reflexivity |]. split; [exact R | exact (O eq_refl)].
Defined.

(** C4 at a table whose data row equals its header row: the test
    [line == content[0]] holds for the data row too, which is written
    with "Extraction Date" in front instead of the date. *)
Theorem extraction_date_header_lookalike (py_str : json -> string) :
  trace (list_to_csv_file no_faults py_str "out.csv"
           [JList [JStr "a"]; JList [JStr "a"]] "," (JStr "2024-01-01"))
  = [Log INFO "[GAUtils.download] saving report to out.csv";
     FileOpen "out.csv";
     FileWrite "out.csv" (csv_line "," ["Extraction Date"; "a"]);
     FileWrite "out.csv" (csv_line "," ["Extraction Date"; "a"]);
     FileClose "out.csv"].
Proof. reflexivity. Qed.

(** When no data row equals the header row the extraction date goes in
    front of every data row and "Extraction Date" in front of the
    header. *)
Example extraction_date_prepended (py_str : json -> string) :
  trace (list_to_csv_file no_faults py_str "out.csv"
           [JList [JStr "country"; JStr "view_id"];
            JList [JStr "US"; JStr "12345678"]] ","
           (JStr "2024-01-01"))
  = [Log INFO "[GAUtils.download] saving report to out.csv";
     FileOpen "out.csv";
     FileWrite "out.csv"
       (csv_line "," ["Extraction Date"; "country"; "view_id"]);
     FileWrite "out.csv" (csv_line "," ["2024-01-01"; "US"; "12345678"]);
     FileClose "out.csv"].
Proof. reflexivity. Qed.

(** ** The batch loop *)

(** The name of the file of a day. *)
Definition day_file (report_name : string) (d : date) : string :=
  ("./files/" ++ report_name ++ "_" ++ strftime d "%Y%m%d" ++ ".csv")%string.

(** [n] consecutive days starting with [d], as far as the calendar goes. *)
Fixpoint days_from (d : date) (n : nat) : list date :=
  match n with
  | O => []
  | S k =>
      d :: match add_one_day d with
           | Ok next => days_from next k
           | Raise _ => []
           end
  end.

(** The days from [first] to [last], both included. *)
Definition date_range (first last : date) : list date :=
  days_from first (Z.to_nat (toordinal last + 1 - toordinal first)).

(** The paths of the files opened for writing, in order. *)
Definition files_opened (t : list event) : list string :=
  flat_map (fun ev => match ev with FileOpen path => [path] | _ => [] end) t.

Definition date_max : date := mkdate 9999 12 31 eq_refl.

Lemma toordinal_le_max (d : date) : toordinal d <= toordinal date_max.
Proof.
  apply date_leb_toordinal. unfold date_leb. simpl.
  pose proof (date_bounds d) as (By & Bm & Bd).
  assert (days_in_month (year d) (month d) <= 31).
  { split_month (month d); unfold days_in_month;
      destruct (is_leap (year d)); lia. }
  destruct (Z.ltb_spec (year d) 9999); [reflexivity |].
  destruct (Z.eqb_spec (year d) 9999); [| lia].
  destruct (Z.ltb_spec (month d) 12); [reflexivity |].
  destruct (Z.eqb_spec (month d) 12); [| lia].
  destruct (Z.leb_spec (day d) 31); [reflexivity | lia].
Qed.

Lemma toordinal_inj (a b : date) : toordinal a = toordinal b -> a = b.
Proof.
  intros E.
  assert (L : date_leb a b = true) by (apply date_leb_toordinal; lia).
  apply date_leb_lex in L as [L | L]; [assumption |].
  apply toordinal_lt_lex in L. lia.
Qed.

Lemma days_from_nth (n : nat) : forall (d x : date) (k : nat),
  nth_error (days_from d n) k = Some x ->
  toordinal x = toordinal d + Z.of_nat k.
Proof.
  induction n as [| n IH]; intros d x k; simpl.
  - destruct k; discriminate.
  - destruct k as [| k]; simpl.
    + intros [= ->]. lia.
    + destruct (add_one_day d) as [next |] eqn:E.
      * intros H. apply IH in H. apply toordinal_add_one_day in E. lia.
      * destruct k; discriminate.
Qed.

Lemma days_from_length (n : nat) : forall d : date,
  toordinal d + Z.of_nat n <= toordinal date_max + 1 ->
  List.length (days_from d n) = n.
Proof.
  induction n as [| n IH]; intros d B; simpl; [reflexivity |].
  f_equal. destruct n as [| n]; [destruct (add_one_day d); reflexivity |].
  destruct (@add_one_day_defined d) as [next E]; [fold date_max; lia |].
  rewrite E. apply IH. apply toordinal_add_one_day in E. lia.
Qed.

Section Batch.

Variable service : json -> result json.
Variable fs : string -> fs_fault.
Variable py_str : json -> string.
Variables view_id report_name : string.
Variable end_date : date.
Variables dimensions metrics : list json.
Variable sampling : string.

Let iteration : date -> M string :=
  batch_iteration service fs py_str view_id report_name dimensions metrics
    sampling.

Let loop : date -> M unit :=
  batch_loop service fs py_str view_id report_name end_date dimensions
    metrics sampling.

(** The loop, unfolded once. *)
Lemma batch_loop_step (current_date : date) :
  loop current_date
  = if date_leb current_date end_date
    then iteration current_date ;;
         match add_one_day current_date with
         | Ok next => loop next
         | Raise e => raise e
         end
    else ret tt.
Proof.
  unfold loop, iteration. rewrite batch_loop_equation_1.
  destruct (inspect (date_leb current_date end_date)) as [[] running];
    simp batch_loop; rewrite running; [| reflexivity].
  f_equal. destruct (add_one_day current_date); reflexivity.
Qed.

(** Every event of a batch run belongs to the iteration of some day. *)
Lemma in_trace_batch_loop (ev : event) (n : nat) :
  forall current_date : date,
    n = Z.to_nat (toordinal end_date + 1 - toordinal current_date) ->
    In ev (trace (loop current_date)) ->
    exists d, In ev (trace (iteration d)).
Proof.
  induction n as [| n IH]; intros cur N; rewrite batch_loop_step.
  - destruct (date_leb cur end_date) eqn:R; [| contradiction].
    apply date_leb_toordinal in R. lia.
  - destruct (date_leb cur end_date) eqn:R; [| contradiction].
    intros H. apply in_trace_bind in H as [H | (file & _ & H)]; [eauto |].
    destruct (add_one_day cur) as [next | e] eqn:E; [| contradiction].
    apply (IH next); [| assumption].
    apply toordinal_add_one_day in E. lia.
Qed.

(** The run of the loop when the report of every day is fetched and
    parsed: one iteration per day, in order; after the last day the loop
    ends, unless that day is the last of the calendar, where the
    increment of the date overflows. *)
Lemma batch_loop_run (n : nat) :
  forall current_date : date,
    n = Z.to_nat (toordinal end_date + 1 - toordinal current_date) ->
    (forall d, In d (days_from current_date n) ->
               exists file, outcome (iteration d) = Ok file) ->
    trace (loop current_date)
      = flat_map (fun d => trace (iteration d)) (days_from current_date n) /\
    outcome (loop current_date)
      = match n with
        | O => Ok tt
        | S _ => rbind (add_one_day end_date) (fun _ => Ok tt)
        end.
Proof.
  induction n as [| n IH]; intros cur N S; rewrite batch_loop_step.
  - destruct (date_leb cur end_date) eqn:R; [| split; reflexivity].
    apply date_leb_toordinal in R. lia.
  - destruct (date_leb cur end_date) eqn:R.
    2:{ assert (~ toordinal cur <= toordinal end_date) as NR.
        { rewrite <- date_leb_toordinal, R. discriminate. }
        lia. }
    apply date_leb_toordinal in R.
    destruct (S cur) as [file F]; [left; reflexivity |].
    rewrite (bind_ok _ _ F). cbn [trace outcome fst snd days_from flat_map].
    destruct (add_one_day cur) as [next | e] eqn:E.
    + pose proof (toordinal_add_one_day _ E) as T.
      destruct (IH next) as [It Io]; [lia | |].
      { intros d Hd. apply S. simpl. rewrite E. right. assumption. }
      rewrite It, Io. split; [reflexivity |].
      destruct n as [| n]; [| reflexivity].
      assert (cur = end_date) as <- by (apply toordinal_inj; lia).
      rewrite E. reflexivity.
    + assert (cur = end_date) as <-.
      { apply toordinal_inj.
        pose proof (toordinal_le_max end_date).
        destruct (Z_lt_ge_dec (toordinal cur) (toordinal date_max)) as [L | L];
          [| lia].
        apply add_one_day_defined in L as [d' L]. congruence. }
      rewrite E. simpl. rewrite app_nil_r. split; reflexivity.
Qed.

End Batch.

(** ** What an iteration does *)

(** Events of the writer after the file is opened. *)
Definition file_event (ev : event) : Prop :=
  match ev with
  | FileWrite _ _ | FileClose _ | LogException _ _ => True
  | _ => False
  end.

Lemma forall_trace_bind {A B} (P : event -> Prop) (m : M A) (f : A -> M B) :
  Forall P (trace m) -> (forall a, Forall P (trace (f a))) ->
  Forall P (trace (bind m f)).
Proof.
  intros Hm Hf. apply Forall_forall. intros ev H.
  apply in_trace_bind in H as [H | (a & _ & H)].
  - rewrite Forall_forall in Hm. auto.
  - specialize (Hf a). rewrite Forall_forall in Hf. auto.
Qed.

Lemma forall_trace_for_each {A} (P : event -> Prop)
  (f : nat -> A -> M unit) (xs : list A) :
  (forall k x, Forall P (trace (f k x))) ->
  forall start, Forall P (trace (for_each f start xs)).
Proof.
  intros Hf. induction xs as [| x xs IH]; intros start; simpl.
  - constructor.
  - apply forall_trace_bind; auto.
Qed.

Lemma flat_map_nil {A B} (sel : A -> list B) (xs : list A) :
  Forall (fun x => sel x = []) xs -> flat_map sel xs = [].
Proof.
  induction 1 as [| x xs Hx _ IH]; [reflexivity |].
  simpl. rewrite Hx, IH. reflexivity.
Qed.

Section Iteration.

Variable service : json -> result json.
Variable fs : string -> fs_fault.
Variable py_str : json -> string.

Lemma writerow_file_events (w : csv_writer_t) (k : nat) (row : json) :
  Forall file_event (trace (writerow fs py_str w k row)).
Proof.
  apply Forall_forall. intros ev H.
  apply in_trace_writerow in H as (fields & _ & ->). exact I.
Qed.

(** The events of the writer: the log line, then, when the file opens,
    its opening followed by writes, the closing or a logged exception. *)
Lemma list_to_csv_file_events (filename : string) (content : list json)
  (delimiter : string) (extraction_date : json) :
  exists rest,
    Forall file_event rest /\
    trace (list_to_csv_file fs py_str filename content delimiter
             extraction_date)
    = Log INFO ("[GAUtils.download] saving report to " ++ filename)
      :: match fs filename with
         | OpenFails => rest
         | _ => FileOpen filename :: rest
         end.
Proof.
  unfold list_to_csv_file. fold error_message. rewrite try_block_trace.
  destruct (fs filename) eqn:F;
    [ | rewrite write_csv_open_fails by exact F; simpl;
        eexists; split; [| reflexivity]; repeat constructor | | ].
  all: unfold write_csv, log, open_w; rewrite bind_emit, F, bind_emit;
    cbn [trace outcome fst snd].
  all: match goal with
       | |- context [outcome ?m] =>
           assert (T : Forall file_event (trace m));
           [| destruct m as [t [[] | e]]; cbn [trace outcome fst snd] in *;
              eexists; (split; [| reflexivity]); auto;
              apply Forall_app; split; auto; repeat constructor ]
       end.
  all: apply (@forall_trace_bind _ _ file_event);
    [ unfold csv_writer; destruct delimiter as [| c [| ? ?]]; constructor
    | intros w; apply (@forall_trace_bind _ _ file_event);
      [ | intros _; unfold file_close; rewrite F; repeat constructor ] ].
  all: destruct extraction_date; apply forall_trace_for_each; intros k x;
    try apply writerow_file_events.
  all: apply (@forall_trace_bind _ _ file_event); [constructor |]; intros h;
    apply (@forall_trace_bind _ _ file_event); [constructor |]; intros l;
    apply writerow_file_events.
Qed.

Lemma list_to_csv_file_outcome (filename : string) (content : list json)
  (delimiter : string) (extraction_date : json) :
  outcome (list_to_csv_file fs py_str filename content delimiter
             extraction_date) = Ok filename.
Proof.
  unfold list_to_csv_file. fold error_message. apply try_block_returns.
Qed.

Lemma get_report_trace (view_id : string) (d : date)
  (dimensions metrics : list json) (sampling : string) :
  exists body,
    trace (get_report service view_id d dimensions metrics sampling)
    = [Log INFO ("[GAUtils.get_report] getting report for "
                 ++ strftime d "%Y-%m-%d");
       ApiRequest body] /\
    requests (trace (get_report service view_id d dimensions metrics sampling))
    = [body].
Proof. eexists. split; reflexivity. Qed.

Lemma parse_report_trace (response : json) (view_id : string) :
  Forall (fun ev => exists msg, ev = Log INFO msg)
    (trace (parse_report response view_id)).
Proof.
  unfold parse_report. destruct (first_report response); simpl;
    repeat constructor. eauto.
Qed.

Variables view_id report_name : string.
Variables dimensions metrics : list json.
Variable sampling : string.

(** A turn of the loop on a day whose report is fetched and parsed. *)
Lemma batch_iteration_run (d : date) (response : json) (table : list json) :
  outcome (get_report service view_id d dimensions metrics sampling)
    = Ok response ->
  outcome (parse_report response view_id) = Ok table ->
  batch_iteration service fs py_str view_id report_name dimensions metrics
    sampling d
  = (Log DEBUG ("Downloading report for view " ++ view_id ++ " at "
                ++ strftime d "%Y%m%d")
     :: trace (get_report service view_id d dimensions metrics sampling)
     ++ trace (parse_report response view_id)
     ++ trace (list_to_csv_file fs py_str (day_file report_name d) table
                 "," JNull),
     Ok (day_file report_name d)).
Proof.
  intros G P. unfold batch_iteration, log. rewrite bind_emit.
  rewrite (bind_ok _ _ G). cbn [trace outcome fst snd].
  rewrite (bind_ok _ _ P). cbn [trace outcome fst snd].
  fold (day_file report_name d). rewrite list_to_csv_file_outcome.
  reflexivity.
Qed.

Lemma batch_iteration_files (d : date) (response : json)
  (table : list json) :
  outcome (get_report service view_id d dimensions metrics sampling)
    = Ok response ->
  outcome (parse_report response view_id) = Ok table ->
  fs (day_file report_name d) <> OpenFails ->
  files_opened
    (trace (batch_iteration service fs py_str view_id report_name dimensions
              metrics sampling d))
  = [day_file report_name d].
Proof.
  intros G P F. rewrite (batch_iteration_run G P).
  cbn [trace fst]. unfold files_opened.
  destruct (get_report_trace view_id d dimensions metrics sampling)
    as (body & -> & _).
  destruct (list_to_csv_file_events (day_file report_name d) table ","
              JNull) as (rest & R & ->).
  cbn [flat_map app]. rewrite !flat_map_app.
  rewrite (@flat_map_nil _ _ _ (trace (parse_report response view_id))).
  2:{ eapply Forall_impl; [| apply parse_report_trace].
      intros ev (msg & ->). reflexivity. }
  assert (flat_map (fun ev => match ev with
                              | FileOpen path => [path]
                              | _ => []
                              end) rest = []) as N.
  { apply flat_map_nil. eapply Forall_impl; [| exact R].
    intros [] H; try reflexivity; contradiction. }
  destruct (fs (day_file report_name d)); try contradiction;
    cbn [flat_map app]; rewrite N; reflexivity.
Qed.

End Iteration.

(** ** The batch run *)

Lemma rbind_ok_inv {A B} (r : result A) (f : A -> result B) (b : B) :
  rbind r f = Ok b -> exists a, r = Ok a /\ f a = Ok b.
Proof. destruct r as [a | e]; simpl; [eauto | discriminate]. Qed.

Ltac rbind_inv :=
  repeat match goal with
         | H : rbind _ _ = Ok _ |- _ =>
             let a := fresh "v" in
             let E := fresh "E" in
             apply rbind_ok_inv in H as (a & E & H); cbv beta in H
         end.

Lemma rmap_forall {A B} (P : B -> Prop) (f : A -> result B) (xs : list A) :
  (forall x y, f x = Ok y -> P y) ->
  forall ys, rmap f xs = Ok ys -> Forall P ys.
Proof.
  intros Hf. induction xs as [| x xs IH]; simpl; intros ys H.
  - injection H as <-. constructor.
  - rbind_inv. injection H as <-. constructor; eauto.
Qed.

Lemma table_row_list (view_id : string) (row cells : json) :
  table_row view_id row = Ok cells -> list_row cells.
Proof.
  unfold table_row. intros H. rbind_inv.
  match type of H with
  | py_list_add ?a _ = _ => destruct a; try discriminate H
  end.
  injection H as <-. eexists. reflexivity.
Qed.

(** The rows of a parsed table are lists. *)
Lemma parse_report_rows (response : json) (view_id : string)
  (table : list json) :
  outcome (parse_report response view_id) = Ok table ->
  Forall list_row table.
Proof.
  unfold parse_report. destruct (first_report response) as [report |];
    [| discriminate].
  rewrite (bind_lift_ok _ eq_refl). unfold log. rewrite bind_emit.
  cbn [outcome snd lift]. unfold report_table. intros H. rbind_inv.
  injection H as <-. constructor; [eexists; reflexivity |].
  eapply rmap_forall; [| eassumption].
  intros x y. apply table_row_list.
Qed.

Lemma files_opened_flat_map {A} (f : A -> list event) (xs : list A) :
  files_opened (flat_map f xs) = flat_map (fun x => files_opened (f x)) xs.
Proof.
  unfold files_opened. induction xs as [| x xs IH]; [reflexivity |].
  simpl. rewrite flat_map_app, IH. reflexivity.
Qed.

Lemma flat_map_singletons {A B} (f : A -> list B) (g : A -> B)
  (xs : list A) :
  (forall x, In x xs -> f x = [g x]) -> flat_map f xs = map g xs.
Proof.
  induction xs as [| x xs IH]; intros H; [reflexivity |].
  simpl. rewrite H by (left; reflexivity). simpl. f_equal.
  apply IH. intros y Hy. apply H. right. assumption.
Qed.

Lemma string_app_nil_r (a : string) : (a ++ EmptyString)%string = a.
Proof. induction a as [| c a IH]; simpl; [| rewrite IH]; reflexivity. Qed.

(** From the year 1000 on the stamp of a day is YYYYMMDD. *)
Lemma stamp_four_digit_year (d : date) :
  1000 <= year d ->
  strftime d "%Y%m%d"
  = (zero_pad 4 (year d) ++ zero_pad 2 (month d) ++ zero_pad 2 (day d))%string.
Proof.
  intros B. cbn [strftime]. rewrite string_app_nil_r.
  unfold year_width.
  destruct (Z.ltb_spec (year d) 10); [lia |].
  destruct (Z.ltb_spec (year d) 100); [lia |].
  destruct (Z.ltb_spec (year d) 1000); [lia | reflexivity].
Qed.

(** C5 (amended): over a range with start <= end whose daily reports are
    fetched and parsed, [get_batch_report] makes one iteration per day of
    the range, in ascending order and without gap or repetition; each
    fetches the report of its day, parses it and hands the table to the
    writer under the name ./files/{report_name}_{stamp}.csv, the stamp
    being [strftime("%Y%m%d")] of the day: YYYYMMDD from the year 1000
    on.  The range 2024-01-01 .. 2024-01-03 gives the three files of the
    example. *)
Theorem get_batch_report_one_file_per_day
  (service : json -> result json) (fs : string -> fs_fault)
  (py_str : json -> string) (view_id : string) (schema : list json)
  (report_name : string) (start_date end_date : date)
  (dimensions metrics : list json) (sampling : string)
  (ordered : date_leb start_date end_date = true)
  (fetched : forall d, In d (date_range start_date end_date) ->
     exists response table,
       outcome (get_report service view_id d dimensions metrics sampling)
         = Ok response /\
       outcome (parse_report response view_id) = Ok table) :
  let days := date_range start_date end_date in
  let iteration :=
    batch_iteration service fs py_str view_id report_name dimensions metrics
      sampling in
  let run :=
    get_batch_report service fs py_str view_id schema report_name start_date
      end_date dimensions metrics sampling in
  Z.of_nat (List.length days) = toordinal end_date - toordinal start_date + 1 /\
  (forall k d, nth_error days k = Some d ->
               toordinal d = toordinal start_date + Z.of_nat k) /\
  trace run = flat_map (fun d => trace (iteration d)) days /\
  outcome run = rbind (add_one_day end_date) (fun _ => Ok tt) /\
  (forall d, In d days ->
     exists response table,
       outcome (get_report service view_id d dimensions metrics sampling)
         = Ok response /\
       outcome (parse_report response view_id) = Ok table /\
       trace (iteration d)
       = Log DEBUG ("Downloading report for view " ++ view_id ++ " at "
                    ++ strftime d "%Y%m%d")
         :: trace (get_report service view_id d dimensions metrics sampling)
         ++ trace (parse_report response view_id)
         ++ trace (list_to_csv_file fs py_str (day_file report_name d) table
                     "," JNull)) /\
  (forall d, In d days -> 1000 <= year d ->
     day_file report_name d
     = ("./files/" ++ report_name ++ "_"
        ++ (zero_pad 4 (year d) ++ zero_pad 2 (month d)
            ++ zero_pad 2 (day d))
        ++ ".csv")%string) /\
  ((forall d, In d days -> fs (day_file report_name d) <> OpenFails) ->
   files_opened (trace run) = map (day_file report_name) days /\
   (start_date = date_2024_01_01 -> end_date = date_2024_01_03 ->
    files_opened (trace run)
    = [("./files/" ++ report_name ++ "_20240101.csv")%string;
       ("./files/" ++ report_name ++ "_20240102.csv")%string;
       ("./files/" ++ report_name ++ "_20240103.csv")%string])).
Proof.
  intros days iteration run.
  apply date_leb_toordinal in ordered.
  assert (N : exists n, Z.to_nat (toordinal end_date + 1 - toordinal start_date)
                        = S n).
  { destruct (Z.to_nat _) eqn:E; [lia | eauto]. }
  destruct N as [n N].
  assert (I : forall d, In d days ->
                exists file, outcome (iteration d) = Ok file).
  { intros d Hd. destruct (fetched d Hd) as (response & table & G & P).
    unfold iteration.
    rewrite batch_iteration_run with (response := response) (table := table)
      by assumption.
    eexists. reflexivity. }
  destruct (@batch_loop_run service fs py_str view_id report_name end_date
              dimensions metrics sampling _ start_date eq_refl I)
    as [T O].
  assert (F : (forall d, In d days ->
                 fs (day_file report_name d) <> OpenFails) ->
              files_opened (trace run) = map (day_file report_name) days).
  { intros opens. unfold run, get_batch_report. rewrite T.
    rewrite files_opened_flat_map. apply flat_map_singletons.
    intros d Hd. destruct (fetched d Hd) as (response & table & G & P).
    apply batch_iteration_files with (response := response) (table := table);
      auto. }
  repeat split.
  - unfold days, date_range. rewrite days_from_length; [lia |].
    pose proof (toordinal_le_max end_date). lia.
  - intros k d. apply days_from_nth.
  - exact T.
  - unfold run, get_batch_report. rewrite O, N. reflexivity.
  - intros d Hd. destruct (fetched d Hd) as (response & table & G & P).
    exists response, table. split; [exact G |]. split; [exact P |].
    unfold iteration.
    rewrite batch_iteration_run with (response := response) (table := table)
      by assumption.
    reflexivity.
  - intros d _ B. unfold day_file. rewrite (stamp_four_digit_year d B).
    reflexivity.
  - apply F; assumption.
  - intros -> ->. rewrite F by assumption. reflexivity.
Qed.

(** C9: the schema is not consulted; two runs that differ in it only are
    the same run: same requests, same tables, same files, same result. *)
Theorem get_batch_report_ignores_schema
  (service : json -> result json) (fs : string -> fs_fault)
  (py_str : json -> string) (view_id : string) (schema schema' : list json)
  (report_name : string) (start_date end_date : date)
  (dimensions metrics : list json) (sampling : string) :
  get_batch_report service fs py_str view_id schema report_name start_date
    end_date dimensions metrics sampling
  = get_batch_report service fs py_str view_id schema' report_name start_date
      end_date dimensions metrics sampling.
Proof. reflexivity. Qed.

(** C10: every record that a batch run writes is a row of the table
    parsed for some day of the run, written to the file of that day with
    a comma between the quoted fields and with no field before those of
    the row: the writer is called with the delimiter "," and without
    extraction date. *)
Theorem batch_files_comma_delimited
  (service : json -> result json) (fs : string -> fs_fault)
  (py_str : json -> string) (view_id : string) (schema : list json)
  (report_name : string) (start_date end_date : date)
  (dimensions metrics : list json) (sampling : string)
  (path data : string)
  (written : In (FileWrite path data)
               (trace (get_batch_report service fs py_str view_id schema
                         report_name start_date end_date dimensions metrics
                         sampling))) :
  exists d response table cells,
    path = day_file report_name d /\
    outcome (get_report service view_id d dimensions metrics sampling)
      = Ok response /\
    outcome (parse_report response view_id) = Ok table /\
    In (JList cells) table /\
    data = csv_line "," (map (field_text py_str) cells).
Proof.
  unfold get_batch_report in written.
  eapply in_trace_batch_loop in written as [d H]; [| reflexivity].
  unfold batch_iteration, log in H.
  apply in_trace_bind in H as [[H | []] | (_ & _ & H)]; [discriminate |].
  apply in_trace_bind in H as [H | (response & G & H)].
  { destruct (get_report_trace service view_id d dimensions metrics sampling)
      as (body & T & _).
    rewrite T in H. simpl in H.
    destruct H as [H | [H | []]]; discriminate. }
  apply in_trace_bind in H as [H | (table & P & H)].
  { pose proof (parse_report_trace response view_id) as L.
    rewrite Forall_forall in L. destruct (L _ H) as [msg E]. discriminate. }
  fold (day_file report_name d) in H.
  apply list_to_csv_file_plain_rows in H
    as (c & row & fields & -> & C & I & R & ->).
  injection C as <-.
  pose proof (parse_report_rows _ _ P) as L. rewrite Forall_forall in L.
  destruct (L row I) as [cells ->].
  exists d, response, table, cells.
  unfold row_fields in R. simpl in R. injection R as <-. auto.
Qed.

(** ** A sample run *)

(** Three days of the country/sessions report of view 12345678 against a
    service that always answers [country_sessions_response], on a file
    system without faults. *)
Definition sample_run : M unit :=
  get_batch_report (fixed_service country_sessions_response) no_faults
    blank_str "12345678" [] "sessions" date_2024_01_01 date_2024_01_03
    [JStr "ga:country"] [JStr "ga:sessions"] "LARGE".

Lemma sample_run_fetched (d : date) :
  exists response table,
    outcome (get_report (fixed_service country_sessions_response) "12345678"
               d [JStr "ga:country"] [JStr "ga:sessions"] "LARGE")
      = Ok response /\
    outcome (parse_report response "12345678") = Ok table.
Proof.
  exists country_sessions_response. eexists. split; reflexivity.
Qed.

Lemma get_batch_report_one_file_per_day_witness :
  date_leb date_2024_01_01 date_2024_01_03 = true /\
  Z.of_nat (List.length (date_range date_2024_01_01 date_2024_01_03)) = 3 /\
  files_opened (trace sample_run)
  = ["./files/sessions_20240101.csv"; "./files/sessions_20240102.csv";
     "./files/sessions_20240103.csv"].
Proof.
  destruct (@get_batch_report_one_file_per_day
              (fixed_service country_sessions_response) no_faults blank_str
              "12345678" [] "sessions" date_2024_01_01 date_2024_01_03
              [JStr "ga:country"] [JStr "ga:sessions"] "LARGE" eq_refl
              (fun d _ => sample_run_fetched d))
    as (L & _ & _ & _ & _ & _ & F).
  destruct F as [_ F]; [intros d _; discriminate |].
  split; [reflexivity |]. split; [exact L | exact (F eq_refl eq_refl)].
Defined.

Lemma batch_files_comma_delimited_witness :
  In (FileWrite "./files/sessions_20240102.csv"
        (csv_line "," ["US"; "42"; "12345678"]))
     (trace sample_run) /\
  exists d response table cells,
    "./files/sessions_20240102.csv" = day_file "sessions" d /\
    outcome (get_report (fixed_service country_sessions_response) "12345678"
               d [JStr "ga:country"] [JStr "ga:sessions"] "LARGE")
      = Ok response /\
    outcome (parse_report response "12345678") = Ok table /\
    In (JList cells) table /\
    csv_line "," ["US"; "42"; "12345678"]
      = csv_line "," (map (field_text blank_str) cells).
Proof.
  assert (W : In (FileWrite "./files/sessions_20240102.csv"
                    (csv_line "," ["US"; "42"; "12345678"]))
                 (trace sample_run)).
  { vm_compute. repeat (try (left; reflexivity); right). }
  split; [exact W |].
  exact (@batch_files_comma_delimited
           (fixed_service country_sessions_response) no_faults blank_str
           "12345678" [] "sessions" date_2024_01_01 date_2024_01_03
           [JStr "ga:country"] [JStr "ga:sessions"] "LARGE" _ _ W).
Defined.

(** C5, as the claim states it, fails before the year 1000: the file of
    0005-03-07 is named with the stamp 50307, not 00050307. *)
Lemma get_batch_report_year_5_file :
  files_opened
    (trace (get_batch_report (fixed_service country_sessions_response)
              no_faults blank_str "12345678" [] "sessions"
              (mkdate 5 3 7 eq_refl) (mkdate 5 3 7 eq_refl)
              [JStr "ga:country"] [JStr "ga:sessions"] "LARGE"))
    = ["./files/sessions_50307.csv"] /\
  "./files/sessions_50307.csv" <> "./files/sessions_00050307.csv".
Proof. split; [reflexivity | discriminate]. Qed.

(** A range that ends on the last day of the calendar: the files are
    written, then the increment of the date overflows. *)
Example batch_until_date_max :
  let run :=
    get_batch_report (fixed_service country_sessions_response) no_faults
      blank_str "12345678" [] "sessions" (mkdate 9999 12 30 eq_refl) date_max
      [JStr "ga:country"] [JStr "ga:sessions"] "LARGE" in
  files_opened (trace run)
    = ["./files/sessions_99991230.csv"; "./files/sessions_99991231.csv"] /\
  outcome run = Raise OverflowError.
Proof. split; reflexivity. Qed.

(** ** The extraction date column *)

Section ExtractionDate.

Variable fs : string -> fs_fault.
Variable py_str : json -> string.

(** The loop of [list_to_csv_file] over data rows that differ from the
    header row: every one is written with the extraction date in
    front. *)
Lemma extraction_date_loop (w : csv_writer_t) (content : list json)
  (header : json) (extraction_date : json) (rows : list (list json)) :
  fs (writer_file w) = NoFault ->
  py_first (JList content) = Ok header ->
  Forall (fun r => py_eq (JList r) header = false) rows ->
  forall start,
    for_each
      (fun k line =>
         header <- lift (py_first (JList content)) ;;
         newline <- lift
           (if py_eq line header
            then py_list_add (JList [JStr "Extraction Date"]) line
            else py_list_add (JList [extraction_date]) line) ;;
         writerow fs py_str w k newline)
      start (map JList rows)
    = (map (fun r =>
              FileWrite (writer_file w)
                (csv_line (writer_delimiter w)
                   (map (field_text py_str) (extraction_date :: r))))
         rows,
       Ok tt).
Proof.
  intros F H D. induction D as [| r rows Hr _ IH]; intros start;
    [reflexivity |].
  cbn [map for_each]. rewrite (bind_lift_ok _ H), Hr.
  cbn [py_list_add app]. rewrite (bind_lift_ok _ eq_refl), writerow_list.
  unfold file_write. rewrite F, bind_emit, IH. reflexivity.
Qed.

(** On a table whose data rows all differ from its header row, on a file
    without fault, the header is written with "Extraction Date" in front
    and every data row with the extraction date in front. *)
Lemma extraction_date_prefix (filename : string) (header : list json)
  (rows : list (list json)) (delimiter : ascii) (extraction_date : json) :
  fs filename = NoFault ->
  extraction_date <> JNull ->
  py_eq (JList header) (JList header) = true ->
  Forall (fun r => py_eq (JList r) (JList header) = false) rows ->
  trace (list_to_csv_file fs py_str filename (JList header :: map JList rows)
           (String delimiter EmptyString) extraction_date)
  = Log INFO ("[GAUtils.download] saving report to " ++ filename)
    :: FileOpen filename
    :: FileWrite filename
         (csv_line delimiter
            (map (field_text py_str) (JStr "Extraction Date" :: header)))
    :: map (fun r =>
              FileWrite filename
                (csv_line delimiter
                   (map (field_text py_str) (extraction_date :: r))))
         rows
    ++ [FileClose filename].
Proof.
  intros F N H D.
  unfold list_to_csv_file. fold error_message. rewrite try_block_trace.
  unfold write_csv, log, open_w, csv_writer.
  rewrite bind_emit, F, bind_emit, bind_ret.
  assert (L : forall start,
    for_each
      (fun k line =>
         h <- lift (py_first (JList (JList header :: map JList rows))) ;;
         newline <- lift
           (if py_eq line h
            then py_list_add (JList [JStr "Extraction Date"]) line
            else py_list_add (JList [extraction_date]) line) ;;
         writerow fs py_str (mkwriter filename delimiter) k newline)
      start (JList header :: map JList rows)
    = (FileWrite filename
         (csv_line delimiter
            (map (field_text py_str) (JStr "Extraction Date" :: header)))
       :: map (fun r =>
                 FileWrite filename
                   (csv_line delimiter
                      (map (field_text py_str) (extraction_date :: r))))
            rows,
       Ok tt)).
  { intros start. cbn [for_each py_first].
    rewrite (bind_lift_ok _ eq_refl), H. cbn [py_list_add app].
    rewrite (bind_lift_ok _ eq_refl), writerow_list.
    unfold file_write. cbn [writer_file writer_delimiter].
    rewrite F, bind_emit.
    rewrite (@extraction_date_loop (mkwriter filename delimiter)
               (JList header :: map JList rows) (JList header)
               extraction_date rows F eq_refl D).
    reflexivity. }
  destruct extraction_date; try contradiction;
    rewrite L; unfold file_close; rewrite F; reflexivity.
Qed.

End ExtractionDate.

(** A report without data rows: the table is the header row. *)
Example parse_report_header_only :
  outcome
    (parse_report
       (JDict
          [("reports",
            JList
              [JDict
                 [("columnHeader",
                   JDict
                     [("dimensions", JList [JStr "ga:country"]);
                      ("metricHeader",
                       JDict
                         [("metricHeaderEntries",
                           JList [JDict [("name", JStr "ga:sessions")]])])]);
                  ("data", JDict [("rowCount", JNum 0)])]])])
       "12345678")
  = Ok [JList [JStr "country"; JStr "sessions"; JStr "view_id"]].
Proof. reflexivity. Qed.

(** A data row without the "dimensions" key, as in an answer to a query
    without dimensions: [row.get("dimensions")] is [None] and the sum
    with the metric values is a [TypeError]. *)
Example table_row_without_dimensions :
  table_row "12345678"
    (JDict [("metrics", JList [JDict [("values", JList [JStr "42"])]])])
  = Raise TypeError.
Proof. reflexivity. Qed.

(** * Further properties *)

(** ** More on the monad *)

Lemma trace_bind {A B} (m : M A) (f : A -> M B) :
  trace (bind m f)
  = trace m ++ match outcome m with
               | Ok a => trace (f a)
               | Raise _ => []
               end.
Proof.
  destruct m as [t [a | e]]; simpl.
  - destruct (f a); reflexivity.
  - rewrite app_nil_r. reflexivity.
Qed.

Lemma outcome_bind {A B} (m : M A) (f : A -> M B) :
  outcome (bind m f)
  = match outcome m with
    | Ok a => outcome (f a)
    | Raise e => Raise e
    end.
Proof.
  destruct m as [t [a | e]]; simpl; [| reflexivity].
  destruct (f a); reflexivity.
Qed.

(** ** More on the CSV writer *)

(** A record written to the file [path]. *)
Definition write_to (path : string) (ev : event) : Prop :=
  exists data, ev = FileWrite path data.

(** A table of strings as the list of lists that the writer receives. *)
Definition string_row (cells : list string) : json := JList (map JStr cells).

Lemma py_eq_string_rows (a b : list string) :
  py_eq (string_row a) (string_row b) = true <-> a = b.
Proof.
  unfold string_row. cbn [py_eq].
  revert b. induction a as [| x a IH]; intros [| y b]; simpl;
    try (split; [discriminate | discriminate]); [tauto |].
  rewrite andb_true_iff, String.eqb_eq, IH.
  split; [intros [-> ->]; reflexivity | intros [= -> ->]; auto].
Qed.

Section WriterRuns.

Variable fs : string -> fs_fault.
Variable py_str : json -> string.

Lemma field_text_strings (cells : list string) :
  map (field_text py_str) (map JStr cells) = cells.
Proof.
  induction cells as [| c cells IH]; [reflexivity |].
  simpl. rewrite IH. reflexivity.
Qed.

Lemma writerow_writes (w : csv_writer_t) (k : nat) (row : json) :
  Forall (write_to (writer_file w)) (trace (writerow fs py_str w k row)).
Proof.
  apply Forall_forall. intros ev H.
  apply in_trace_writerow in H as (fields & _ & ->).
  eexists. reflexivity.
Qed.

(** The loop over the rows, with or without extraction date, only writes
    records to the file of the writer. *)
Lemma write_loop_writes (w : csv_writer_t) (content : list json)
  (extraction_date : json) :
  Forall (write_to (writer_file w))
    (trace
       match extraction_date with
       | JNull => writerows fs py_str w content
       | _ =>
           for_each
             (fun k line =>
                header <- lift (py_first (JList content)) ;;
                newline <- lift
                  (if py_eq line header
                   then py_list_add (JList [JStr "Extraction Date"]) line
                   else py_list_add (JList [extraction_date]) line) ;;
                writerow fs py_str w k newline)
             O content
       end).
Proof.
  destruct extraction_date; apply forall_trace_for_each; intros k x;
    try apply writerow_writes.
  all: apply (@forall_trace_bind _ _ (write_to (writer_file w)));
    [constructor |]; intros h;
    apply (@forall_trace_bind _ _ (write_to (writer_file w)));
    [constructor |]; intros l; apply writerow_writes.
Qed.

(** X1: a run of [list_to_csv_file] logs its start, opens the file at
    most once, then only writes records to that file, and ends either by
    closing the file or, when an exception was caught, by logging it;
    after a caught exception the file is not closed. *)
Theorem list_to_csv_file_trace_shape (filename : string)
  (content : list json) (delimiter : string) (extraction_date : json) :
  let start :=
    Log INFO ("[GAUtils.download] saving report to " ++ filename) in
  exists writes,
    Forall (write_to filename) writes /\
    (trace (list_to_csv_file fs py_str filename content delimiter
              extraction_date)
       = [start; LogException error_message OSError] \/
     trace (list_to_csv_file fs py_str filename content delimiter
              extraction_date)
       = start :: FileOpen filename :: writes ++ [FileClose filename] \/
     exists e,
       trace (list_to_csv_file fs py_str filename content delimiter
                extraction_date)
         = start :: FileOpen filename :: writes
           ++ [LogException error_message e]).
Proof.
  cbv zeta. unfold list_to_csv_file. fold error_message.
  rewrite try_block_trace.
  destruct (fs filename) eqn:F;
    [ | exists []; split; [constructor | left];
        rewrite write_csv_open_fails by exact F; reflexivity | | ].
  all: unfold write_csv, log, open_w; rewrite bind_emit, F, bind_emit;
    cbn [trace outcome fst snd].
  all: rewrite trace_bind, outcome_bind; unfold csv_writer;
    destruct delimiter as [| c [| c' rest]];
    cbn [trace outcome fst snd ret raise app];
    try (exists []; split; [constructor | right; right; eexists; reflexivity]).
  all: rewrite trace_bind, outcome_bind;
    pose proof (write_loop_writes (mkwriter filename c) content
                  extraction_date) as W;
    cbn [writer_file] in W;
    match goal with
    | |- context [outcome ?m] =>
        change (Forall (write_to filename) (trace m)) in W;
        destruct m as [t [[] | e]]
    end;
    cbn [trace outcome fst snd] in *;
    try (exists t; split; [exact W |]; right; right; exists e;
         rewrite app_nil_r; reflexivity).
  all: unfold file_close; rewrite F; cbn [trace outcome fst snd emit raise].
  - exists t. split; [exact W |]. right. left. reflexivity.
  - exists t. split; [exact W |]. right. left. reflexivity.
  - exists t. split; [exact W |]. right. right. exists OSError.
    rewrite app_nil_r. reflexivity.
Qed.

Lemma try_block_ok (t : list event) (filename : string) :
  (try_except (t, Ok tt)
     (fun e => emit (LogException error_message e)) ;; ret filename)
  = (t, Ok filename).
Proof. simpl. rewrite app_nil_r. reflexivity. Qed.

Lemma try_block_raise (t : list event) (e : exn) (filename : string) :
  (try_except (t, Raise e)
     (fun e => emit (LogException error_message e)) ;; ret filename)
  = (t ++ [LogException error_message e], Ok filename).
Proof. simpl. rewrite app_nil_r. reflexivity. Qed.

Lemma writerows_lists (w : csv_writer_t) (rows : list (list json)) :
  fs (writer_file w) = NoFault ->
  forall start,
    for_each (writerow fs py_str w) start (map JList rows)
    = (map (fun r =>
              FileWrite (writer_file w)
                (csv_line (writer_delimiter w) (map (field_text py_str) r)))
         rows,
       Ok tt).
Proof.
  intros F. induction rows as [| r rows IH]; intros start; [reflexivity |].
  cbn [map for_each]. rewrite writerow_list. unfold file_write.
  rewrite F, bind_emit, IH. reflexivity.
Qed.

(** X2: without extraction date, on a file without fault, a table whose
    rows are lists is written row by row, in order and unchanged, between
    the opening and the closing of the file, and the name is returned. *)
Theorem list_to_csv_file_plain (filename : string) (rows : list (list json))
  (delimiter : ascii) (ok : fs filename = NoFault) :
  list_to_csv_file fs py_str filename (map JList rows)
    (String delimiter EmptyString) JNull
  = (Log INFO ("[GAUtils.download] saving report to " ++ filename)
     :: FileOpen filename
     :: map (fun r =>
               FileWrite filename
                 (csv_line delimiter (map (field_text py_str) r)))
          rows
     ++ [FileClose filename],
     Ok filename).
Proof.
  unfold list_to_csv_file, write_csv, log, open_w, csv_writer, writerows.
  fold error_message. rewrite bind_emit, ok, bind_emit, bind_ret.
  rewrite (@writerows_lists (mkwriter filename delimiter) rows ok O).
  unfold file_close. rewrite ok.
  cbn [bind emit trace outcome fst snd writer_file writer_delimiter].
  apply try_block_ok.
Qed.

(** X3: with an extraction date, on a file without fault, a table of
    strings none of whose data rows equals the header row is written
    with "Extraction Date" before the header cells and the date before
    the cells of every data row. *)
Theorem extraction_date_column (filename : string) (header : list string)
  (rows : list (list string)) (delimiter : ascii) (stamp : string)
  (ok : fs filename = NoFault)
  (distinct : Forall (fun r => r <> header) rows) :
  trace (list_to_csv_file fs py_str filename
           (map string_row (header :: rows))
           (String delimiter EmptyString) (JStr stamp))
  = Log INFO ("[GAUtils.download] saving report to " ++ filename)
    :: FileOpen filename
    :: FileWrite filename (csv_line delimiter ("Extraction Date" :: header))
    :: map (fun r => FileWrite filename (csv_line delimiter (stamp :: r)))
         rows
    ++ [FileClose filename].
Proof.
  cbn [map]. unfold string_row at 1.
  replace (map string_row rows) with (map JList (map (map JStr) rows))
    by (rewrite map_map; reflexivity).
  rewrite (@extraction_date_prefix fs py_str filename (map JStr header)
             (map (map JStr) rows) delimiter (JStr stamp) ok).
  - cbn [map field_text]. rewrite field_text_strings, map_map.
    do 3 f_equal. f_equal. apply map_ext. intros r.
    rewrite field_text_strings. reflexivity.
  - discriminate.
  - apply (py_eq_string_rows header header). reflexivity.
  - apply Forall_map. eapply Forall_impl; [| exact distinct].
    intros r Hr. destruct (py_eq (JList (map JStr r)) (JList (map JStr header)))
      eqn:E; [| reflexivity].
    apply (py_eq_string_rows r header) in E. contradiction.
Qed.

(** X4: a delimiter that is not a single character is refused by the
    CSV writer after the file has been opened: the file is created or
    emptied, nothing is written to it, it is not closed, the [TypeError]
    is logged and the name is returned all the same. *)
Theorem list_to_csv_file_bad_delimiter (filename : string)
  (content : list json) (delimiter : string) (extraction_date : json)
  (opens : fs filename <> OpenFails)
  (bad : String.length delimiter <> 1%nat) :
  list_to_csv_file fs py_str filename content delimiter extraction_date
  = ([Log INFO ("[GAUtils.download] saving report to " ++ filename);
      FileOpen filename;
      LogException error_message TypeError],
     Ok filename).
Proof.
  unfold list_to_csv_file, write_csv, log, open_w, csv_writer.
  fold error_message. rewrite bind_emit.
  destruct delimiter as [| c [| c' rest]]; [| contradiction bad; reflexivity |];
    destruct (fs filename); try contradiction;
    cbn [bind emit raise trace outcome fst snd app];
    apply (try_block_raise [_; _]).
Qed.

(** X5: without extraction date, on a file without fault, the rows
    before the first row that is not iterable are written, then the
    error of the writer is logged; the file keeps the rows written so
    far and is not closed. *)
Theorem list_to_csv_file_stops_at_bad_row (filename : string)
  (before : list (list json)) (bad_row : json) (after : list json)
  (delimiter : ascii) (e : exn)
  (ok : fs filename = NoFault)
  (bad : py_iter bad_row = Raise e) :
  list_to_csv_file fs py_str filename
    (map JList before ++ bad_row :: after)
    (String delimiter EmptyString) JNull
  = (Log INFO ("[GAUtils.download] saving report to " ++ filename)
     :: FileOpen filename
     :: map (fun r =>
               FileWrite filename
                 (csv_line delimiter (map (field_text py_str) r)))
          before
     ++ [LogException error_message CsvError],
     Ok filename).
Proof.
  unfold list_to_csv_file, write_csv, log, open_w, csv_writer, writerows.
  fold error_message. rewrite bind_emit, ok, bind_emit, bind_ret.
  assert (L : forall start,
             for_each (writerow fs py_str (mkwriter filename delimiter))
               start (map JList before ++ bad_row :: after)
             = (map (fun r =>
                       FileWrite filename
                         (csv_line delimiter (map (field_text py_str) r)))
                  before,
                Raise CsvError)).
  { induction before as [| r rows IH]; intros start.
    - cbn [map app for_each]. unfold writerow, row_fields. rewrite bad.
      reflexivity.
    - cbn [map app for_each]. rewrite writerow_list. unfold file_write.
      cbn [writer_file writer_delimiter]. rewrite ok, bind_emit, IH.
      reflexivity. }
  rewrite L. cbn [bind trace outcome fst snd].
  apply (try_block_raise (_ :: _ :: _)).
Qed.

End WriterRuns.

(** ** Quoting loses nothing *)

Lemma string_app_assoc (a b c : string) :
  ((a ++ b) ++ c = a ++ (b ++ c))%string.
Proof. induction a as [| x a IH]; simpl; [| rewrite IH]; reflexivity. Qed.

Definition starts_with_quote (s : string) : Prop :=
  match s with
  | String c _ => c = quote_char
  | EmptyString => False
  end.

Lemma double_quotes_inj (a : string) : forall (b r1 r2 : string),
  ~ starts_with_quote r1 -> ~ starts_with_quote r2 ->
  (double_quotes a ++ String quote_char r1
   = double_quotes b ++ String quote_char r2)%string ->
  a = b /\ r1 = r2.
Proof.
  induction a as [| c a IH]; intros [| c' b] r1 r2 N1 N2; cbn [double_quotes].
  - simpl. intros [= ->]. auto.
  - destruct (Ascii.eqb_spec c' quote_char) as [-> | D]; simpl; intros [= E].
    + subst r1. exfalso. apply N1. reflexivity.
    + congruence.
  - destruct (Ascii.eqb_spec c quote_char) as [-> | D]; simpl; intros [= E].
    + subst r2. exfalso. apply N2. reflexivity.
    + congruence.
  - destruct (Ascii.eqb_spec c quote_char) as [-> | D];
      destruct (Ascii.eqb_spec c' quote_char) as [-> | D']; simpl.
    + intros [= E]. apply IH in E as [-> ->]; auto.
    + intros [= E _]. congruence.
    + intros [= E _]. congruence.
    + intros [= -> E]. apply IH in E as [-> ->]; auto.
Qed.

Lemma quoted_inj (a b r1 r2 : string) :
  ~ starts_with_quote r1 -> ~ starts_with_quote r2 ->
  (quoted a ++ r1 = quoted b ++ r2)%string -> a = b /\ r1 = r2.
Proof.
  intros N1 N2. unfold quoted. simpl. rewrite !string_app_assoc. simpl.
  intros [= E]. eapply double_quotes_inj; eassumption.
Qed.

(** What follows the first field of a record. *)
Definition after_field (delimiter : ascii) (fields : list string) : string :=
  match fields with
  | [] => line_terminator
  | _ :: _ => String delimiter (csv_line delimiter fields)
  end.

Lemma csv_line_cons (delimiter : ascii) (x : string) (rest : list string) :
  csv_line delimiter (x :: rest)
  = (quoted x ++ after_field delimiter rest)%string.
Proof.
  unfold csv_line, after_field. destruct rest as [| y rest]; [reflexivity |].
  cbn [map join]. rewrite string_app_assoc. reflexivity.
Qed.

Lemma after_field_no_quote (delimiter : ascii) (fields : list string) :
  delimiter <> quote_char -> ~ starts_with_quote (after_field delimiter fields).
Proof.
  intros D. destruct fields; simpl; [discriminate | assumption].
Qed.

Lemma csv_line_inj (delimiter : ascii) (f1 : list string) :
  delimiter <> quote_char ->
  forall f2, csv_line delimiter f1 = csv_line delimiter f2 -> f1 = f2.
Proof.
  intros D. induction f1 as [| x r1 IH]; intros [| y r2].
  - reflexivity.
  - rewrite csv_line_cons. discriminate.
  - rewrite csv_line_cons. discriminate.
  - rewrite !csv_line_cons. intros E.
    apply quoted_inj in E as [-> E]; try apply after_field_no_quote; auto.
    f_equal. destruct r1 as [| x1 r1], r2 as [| y2 r2]; simpl in E.
    + reflexivity.
    + rewrite csv_line_cons in E. discriminate.
    + rewrite csv_line_cons in E. discriminate.
    + injection E as E. apply IH, E.
Qed.

Lemma map_inj {A B} (f : A -> B) (xs : list A) :
  (forall x y, f x = f y -> x = y) ->
  forall ys, map f xs = map f ys -> xs = ys.
Proof.
  intros I. induction xs as [| x xs IH]; intros [| y ys]; simpl;
    try discriminate; [reflexivity |].
  intros [= E1 E2]. f_equal; auto.
Qed.

(** X6: with every field quoted, the records written determine the table:
    on a file without fault and with a delimiter other than the quote
    character, two tables of strings written without extraction date
    give the same file operations only if they are the same table,
    whatever delimiters, quotes or line breaks their cells contain. *)
Theorem list_to_csv_file_faithful (fs : string -> fs_fault)
  (py_str : json -> string) (filename : string)
  (table table' : list (list string)) (delimiter : ascii)
  (ok : fs filename = NoFault)
  (sep : delimiter <> quote_char)
  (same : trace (list_to_csv_file fs py_str filename
                   (map string_row table) (String delimiter EmptyString)
                   JNull)
          = trace (list_to_csv_file fs py_str filename
                     (map string_row table') (String delimiter EmptyString)
                     JNull)) :
  table = table'.
Proof.
  assert (T : forall t : list (list string),
    trace (list_to_csv_file fs py_str filename (map string_row t)
             (String delimiter EmptyString) JNull)
    = Log INFO ("[GAUtils.download] saving report to " ++ filename)
      :: FileOpen filename
      :: map (fun r => FileWrite filename (csv_line delimiter r)) t
      ++ [FileClose filename]).
  { intros t. unfold list_to_csv_file. fold error_message.
    rewrite try_block_trace.
    unfold write_csv, log, open_w, csv_writer, writerows.
    rewrite bind_emit, ok, bind_emit, bind_ret.
    replace (map string_row t) with (map JList (map (map JStr) t))
      by (rewrite map_map; reflexivity).
    rewrite (@writerows_lists fs py_str (mkwriter filename delimiter)
               (map (map JStr) t) ok O).
    unfold file_close. rewrite ok.
    cbn [bind emit trace outcome fst snd writer_file writer_delimiter].
    rewrite map_map. do 3 f_equal. apply map_ext. intros r.
    rewrite field_text_strings. reflexivity. }
  rewrite !T in same. injection same as same.
  apply app_inv_tail in same.
  revert same. apply map_inj. intros r r' [= E].
  apply csv_line_inj in E; assumption.
Qed.

(** ** More on [parse_report] *)

Lemma rbind_raises {A B} (r : result A) (f : A -> result B) :
  (forall a, exists e, f a = Raise e) -> exists e, rbind r f = Raise e.
Proof. intros H. destruct r as [a | e]; simpl; eauto. Qed.

Lemma rbind_raises_now {A B} (r : result A) (f : A -> result B) :
  (exists e, r = Raise e) -> exists e, rbind r f = Raise e.
Proof. intros [e ->]. simpl. eauto. Qed.

Lemma rmap_raises {A B} (f : A -> result B) (xs : list A) (x : A) :
  In x xs -> (exists e, f x = Raise e) -> exists e, rmap f xs = Raise e.
Proof.
  intros I [e E]. induction xs as [| y xs IH]; [contradiction |].
  simpl. destruct I as [-> | I].
  - rewrite E. simpl. eauto.
  - destruct (f y); simpl; [| eauto].
    destruct (IH I) as [e' ->]. simpl. eauto.
Qed.

Lemma rmap_image {A B C} (f : A -> result B) (g : C -> B) (xs : list A) :
  (forall x y, f x = Ok y -> exists c, y = g c) ->
  forall ys, rmap f xs = Ok ys -> exists cs, ys = map g cs.
Proof.
  intros Hf. induction xs as [| x xs IH]; simpl; intros ys H.
  - injection H as <-. exists []. reflexivity.
  - rbind_inv. injection H as <-.
    destruct (Hf _ _ E) as [c ->]. destruct (IH _ E0) as [cs ->].
    exists (c :: cs). reflexivity.
Qed.

Lemma strip_name_string (name cell : json) :
  strip_name name = Ok cell -> exists s, cell = JStr s.
Proof.
  unfold strip_name, py_replace. destruct name; try discriminate.
  intros [= <-]. eauto.
Qed.

Lemma table_row_ends_with_view_id (view_id : string) (row cells : json) :
  table_row view_id row = Ok cells ->
  exists values, cells = JList (values ++ [JStr view_id]).
Proof.
  unfold table_row. intros H. rbind_inv.
  match type of H with
  | py_list_add ?a _ = _ => destruct a; try discriminate H
  end.
  injection H as <-. eauto.
Qed.

Lemma table_row_needs_dimensions (view_id : string)
  (row : list (string * json)) :
  dict_lookup row "dimensions" = None ->
  exists e, table_row view_id (JDict row) = Raise e.
Proof.
  intros N. unfold table_row, py_get at 1. rewrite N. cbn [rbind].
  do 3 (apply rbind_raises; intros ?).
  apply rbind_raises_now. simpl. eauto.
Qed.

(** X7: a data row without the "dimensions" key, as in the answer to a
    query without dimensions, makes [parse_report] raise: no table is
    returned, although the header is read with a default for the same
    missing key. *)
Theorem parse_report_row_without_dimensions
  (fields report data row : list (string * json)) (others rows : list json)
  (view_id : string)
  (first : dict_lookup fields "reports"
           = Some (JList (JDict report :: others)))
  (has_data : field_or report "data" (JDict []) = JDict data)
  (has_rows : field_or data "rows" (JList []) = JList rows)
  (member : In (JDict row) rows)
  (missing : dict_lookup row "dimensions" = None) :
  exists e, outcome (parse_report (JDict fields) view_id) = Raise e.
Proof.
  unfold parse_report, first_report. rewrite py_get_dict.
  unfold field_or. rewrite first. cbn [rbind py_first].
  rewrite (bind_lift_ok _ eq_refl). unfold log. rewrite bind_emit.
  cbn [outcome snd lift]. unfold report_table.
  do 6 (apply rbind_raises; intros ?).
  rewrite py_get_dict, has_data. cbn [rbind].
  rewrite py_get_dict, has_rows. cbn [rbind py_iter].
  apply rbind_raises_now.
  eapply rmap_raises; [exact member |].
  apply table_row_needs_dimensions, missing.
Qed.

(** X8: [parse_report] reads nothing but the "columnHeader" and "data"
    sections of the first report: two responses whose first reports agree
    on these two sections give the same result, whatever else they hold
    (further reports, "nextPageToken", totals). *)
Theorem parse_report_reads_header_and_data
  (fields fields' report report' : list (string * json))
  (others others' : list json) (view_id : string)
  (first : dict_lookup fields "reports"
           = Some (JList (JDict report :: others)))
  (first' : dict_lookup fields' "reports"
            = Some (JList (JDict report' :: others')))
  (same_header : dict_lookup report "columnHeader"
                 = dict_lookup report' "columnHeader")
  (same_data : dict_lookup report "data" = dict_lookup report' "data") :
  parse_report (JDict fields) view_id = parse_report (JDict fields') view_id.
Proof.
  unfold parse_report, first_report. rewrite !py_get_dict.
  unfold field_or. rewrite first, first'. cbn [rbind py_first].
  rewrite !(bind_lift_ok _ eq_refl). do 2 f_equal.
  unfold report_table, py_get. rewrite same_header, same_data. reflexivity.
Qed.

(** X9: every table that [parse_report] returns starts with a header row
    of strings ending in "view_id", and each of its other rows is a list
    ending in the view id. *)
Theorem parse_report_table_invariant (response : json) (view_id : string)
  (table : list json)
  (parsed : outcome (parse_report response view_id) = Ok table) :
  exists (names : list string) (body : list (list json)),
    table
    = JList (map JStr names ++ [JStr "view_id"])
      :: map (fun cells => JList (cells ++ [JStr view_id])) body.
Proof.
  revert parsed. unfold parse_report.
  destruct (first_report response) as [report |]; [| discriminate].
  rewrite (bind_lift_ok _ eq_refl). unfold log. rewrite bind_emit.
  cbn [outcome snd lift]. unfold report_table. intros H. rbind_inv.
  injection H as <-.
  unfold strip_names in *.
  match goal with
  | D : rmap strip_name _ = Ok _ |- _ =>
      eapply rmap_image with (g := JStr) in D; [| apply strip_name_string]
  end.
  match goal with
  | D : rmap (fun metric => _) _ = Ok _ |- _ =>
      eapply rmap_image with (g := JStr) in D;
      [| intros x y Hx; apply rbind_ok_inv in Hx as (n & _ & Hx);
         apply strip_name_string in Hx; exact Hx]
  end.
  match goal with
  | D : rmap (table_row _) _ = Ok _ |- _ =>
      eapply rmap_image
        with (g := fun cells => JList (cells ++ [JStr view_id])) in D;
      [| apply table_row_ends_with_view_id]
  end.
  repeat match goal with
         | H : exists _, _ |- _ => destruct H as [? ->]
         end.
  eexists (_ ++ _), _. rewrite app_assoc, <- map_app. reflexivity.
Qed.

(** ** More on the batch run *)

(** The body of the request for the report of one day. *)
Definition single_day_request (view_id : string) (d : date)
  (dimensions metrics : list json) (sampling : string) : json :=
  JDict
    [("reportRequests",
      JList
        [JDict
           [("viewId", JStr view_id);
            ("dateRanges",
             JList [JDict [("startDate", JStr (strftime d "%Y-%m-%d"));
                           ("endDate", JStr (strftime d "%Y-%m-%d"))]]);
            ("metrics",
             JList (map (fun m => JDict [("expression", m)]) metrics));
            ("dimensions",
             JList (map (fun x => JDict [("name", x)]) dimensions));
            ("samplingLevel", JStr sampling);
            ("pageSize", JNum 100000)]])].

Lemma get_report_run (service : json -> result json) (view_id : string)
  (d : date) (dimensions metrics : list json) (sampling : string) :
  get_report service view_id d dimensions metrics sampling
  = ([Log INFO ("[GAUtils.get_report] getting report for "
                ++ strftime d "%Y-%m-%d");
      ApiRequest (single_day_request view_id d dimensions metrics sampling)],
     service (single_day_request view_id d dimensions metrics sampling)).
Proof. reflexivity. Qed.

Lemma requests_app (t t' : list event) :
  requests (t ++ t') = requests t ++ requests t'.
Proof. apply flat_map_app. Qed.

Lemma requests_flat_map {A} (f : A -> list event) (xs : list A) :
  requests (flat_map f xs) = flat_map (fun x => requests (f x)) xs.
Proof.
  induction xs as [| x xs IH]; [reflexivity |].
  simpl. rewrite requests_app, IH. reflexivity.
Qed.

Lemma requests_parse_report (response : json) (view_id : string) :
  requests (trace (parse_report response view_id)) = [].
Proof.
  apply flat_map_nil. eapply Forall_impl; [| apply parse_report_trace].
  intros ev (msg & ->). reflexivity.
Qed.

Lemma requests_list_to_csv_file (fs : string -> fs_fault)
  (py_str : json -> string) (filename : string) (content : list json)
  (delimiter : string) (extraction_date : json) :
  requests (trace (list_to_csv_file fs py_str filename content delimiter
                     extraction_date)) = [].
Proof.
  destruct (list_to_csv_file_events fs py_str filename content delimiter
              extraction_date) as (rest & R & ->).
  assert (N : requests rest = []).
  { apply flat_map_nil. eapply Forall_impl; [| exact R].
    intros [] H; try reflexivity; contradiction. }
  destruct (fs filename); simpl; exact N.
Qed.

Section BatchRuns.

Variable service : json -> result json.
Variables view_id report_name : string.
Variables dimensions metrics : list json.
Variable sampling : string.

(** Each turn sends the request of its day and no other, whether it
    succeeds or not. *)
Lemma batch_iteration_requests (fs : string -> fs_fault)
  (py_str : json -> string) (d : date) :
  requests (trace (batch_iteration service fs py_str view_id report_name
                     dimensions metrics sampling d))
  = [single_day_request view_id d dimensions metrics sampling].
Proof.
  unfold batch_iteration, log. rewrite bind_emit. cbn [trace fst].
  rewrite trace_bind, get_report_run. cbn [trace outcome fst snd].
  match goal with
  | |- requests (?a :: [?b; ?c] ++ ?t) = _ =>
      change (requests ([a; b; c] ++ t)
              = [single_day_request view_id d dimensions metrics sampling])
  end.
  rewrite requests_app. cbn [requests flat_map app].
  f_equal.
  destruct (service _) as [response | e]; [| reflexivity].
  rewrite trace_bind, requests_app, requests_parse_report.
  destruct (outcome (parse_report response view_id)); [| reflexivity].
  apply requests_list_to_csv_file.
Qed.

(** The result of a turn: the file name of the day, or the exception of
    the fetch or of the parsing; the writer has no part in it. *)
Lemma batch_iteration_outcome (fs : string -> fs_fault)
  (py_str : json -> string) (d : date) :
  outcome (batch_iteration service fs py_str view_id report_name dimensions
             metrics sampling d)
  = rbind (service (single_day_request view_id d dimensions metrics sampling))
      (fun response =>
         rbind (outcome (parse_report response view_id))
           (fun _ => Ok (day_file report_name d))).
Proof.
  unfold batch_iteration, log. rewrite bind_emit. cbn [outcome snd].
  rewrite outcome_bind, get_report_run. cbn [outcome snd].
  destruct (service _) as [response | e]; [| reflexivity].
  cbn [rbind]. rewrite outcome_bind.
  destruct (outcome (parse_report response view_id)); [| reflexivity].
  apply list_to_csv_file_outcome.
Qed.

Lemma batch_loop_files_irrelevant (fs fs' : string -> fs_fault)
  (py_str py_str' : json -> string) (end_date : date) (n : nat) :
  forall current_date : date,
    n = Z.to_nat (toordinal end_date + 1 - toordinal current_date) ->
    outcome (batch_loop service fs py_str view_id report_name end_date
               dimensions metrics sampling current_date)
    = outcome (batch_loop service fs' py_str' view_id report_name end_date
                 dimensions metrics sampling current_date) /\
    requests (trace (batch_loop service fs py_str view_id report_name
                       end_date dimensions metrics sampling current_date))
    = requests (trace (batch_loop service fs' py_str' view_id report_name
                         end_date dimensions metrics sampling current_date)).
Proof.
  induction n as [| n IH]; intros cur N; rewrite !batch_loop_step;
    destruct (date_leb cur end_date) eqn:R; try (split; reflexivity).
  - apply date_leb_toordinal in R. lia.
  - rewrite !outcome_bind, !trace_bind, !requests_app,
      !batch_iteration_requests, !batch_iteration_outcome.
    destruct (rbind _ _) as [file | e]; [| split; reflexivity].
    destruct (add_one_day cur) as [next | e] eqn:E; [| split; reflexivity].
    destruct (IH next) as [O T].
    { apply toordinal_add_one_day in E. apply date_leb_toordinal in R. lia. }
    rewrite O, T. split; reflexivity.
Qed.

(** X10: what a batch run fetches and how it ends do not depend on the
    file system: with failing or working files the same requests are
    sent in the same order and the run has the same result, so that a
    failure of the writer never stops or shortens a batch. *)
Theorem get_batch_report_files_irrelevant (fs fs' : string -> fs_fault)
  (py_str py_str' : json -> string) (schema : list json)
  (start_date end_date : date) :
  outcome (get_batch_report service fs py_str view_id schema report_name
             start_date end_date dimensions metrics sampling)
  = outcome (get_batch_report service fs' py_str' view_id schema report_name
               start_date end_date dimensions metrics sampling) /\
  requests (trace (get_batch_report service fs py_str view_id schema
                     report_name start_date end_date dimensions metrics
                     sampling))
  = requests (trace (get_batch_report service fs' py_str' view_id schema
                       report_name start_date end_date dimensions metrics
                       sampling)).
Proof.
  unfold get_batch_report. eapply batch_loop_files_irrelevant. reflexivity.
Qed.

(** The run of the loop up to the first day whose turn fails. *)
Lemma batch_loop_abort (fs : string -> fs_fault) (py_str : json -> string)
  (end_date : date) (e : exn) (bad : date) (n : nat) :
  forall (current_date : date) (k : nat),
    n = Z.to_nat (toordinal end_date + 1 - toordinal current_date) ->
    nth_error (days_from current_date n) k = Some bad ->
    (forall d, In d (firstn k (days_from current_date n)) ->
       exists file,
         outcome (batch_iteration service fs py_str view_id report_name
                    dimensions metrics sampling d) = Ok file) ->
    outcome (batch_iteration service fs py_str view_id report_name
               dimensions metrics sampling bad) = Raise e ->
    batch_loop service fs py_str view_id report_name end_date dimensions
      metrics sampling current_date
    = (flat_map
         (fun d =>
            trace (batch_iteration service fs py_str view_id report_name
                     dimensions metrics sampling d))
         (firstn (S k) (days_from current_date n)),
       Raise e).
Proof.
  induction n as [| n IH]; intros cur k N Hk Hb He.
  - destruct k; discriminate.
  - rewrite batch_loop_step.
    destruct (date_leb cur end_date) eqn:R.
    2:{ assert (~ toordinal cur <= toordinal end_date) as NR.
        { rewrite <- date_leb_toordinal, R. discriminate. }
        lia. }
    apply date_leb_toordinal in R.
    destruct k as [| k].
    + simpl in Hk. injection Hk as <-.
      rewrite (bind_raise _ _ He). cbn [firstn days_from flat_map].
      rewrite app_nil_r. reflexivity.
    + destruct (Hb cur) as [file F]; [left; reflexivity |].
      rewrite (bind_ok _ _ F). cbn [days_from] in *.
      destruct (add_one_day cur) as [next | e'] eqn:E.
      2:{ destruct k; discriminate. }
      cbn [nth_error] in Hk.
      rewrite (IH next k); auto.
      * apply toordinal_add_one_day in E. lia.
      * intros d Hd. apply Hb. right. assumption.
Qed.

End BatchRuns.

(** X11: over a range with start <= end whose daily reports are fetched
    and parsed, the requests of a batch run are the single-day requests
    of the days of the range, one per day and in order, each with the
    page size 100000 and no page token: a report is never fetched beyond
    its first page. *)
Theorem get_batch_report_requests
  (service : json -> result json) (fs : string -> fs_fault)
  (py_str : json -> string) (view_id : string) (schema : list json)
  (report_name : string) (start_date end_date : date)
  (dimensions metrics : list json) (sampling : string)
  (ordered : date_leb start_date end_date = true)
  (fetched : forall d, In d (date_range start_date end_date) ->
     exists response table,
       outcome (get_report service view_id d dimensions metrics sampling)
         = Ok response /\
       outcome (parse_report response view_id) = Ok table) :
  requests (trace (get_batch_report service fs py_str view_id schema
                     report_name start_date end_date dimensions metrics
                     sampling))
  = map (fun d => single_day_request view_id d dimensions metrics sampling)
      (date_range start_date end_date).
Proof.
  assert (I : forall d, In d (date_range start_date end_date) ->
            exists file,
              outcome (batch_iteration service fs py_str view_id report_name
                         dimensions metrics sampling d) = Ok file).
  { intros d Hd. destruct (fetched d Hd) as (response & table & G & P).
    rewrite batch_iteration_outcome. rewrite get_report_run in G.
    cbn [outcome snd] in G. rewrite G. cbn [rbind]. rewrite P.
    cbn [rbind]. eexists. reflexivity. }
  destruct (@batch_loop_run service fs py_str view_id report_name end_date
              dimensions metrics sampling _ start_date eq_refl I)
    as [T _].
  unfold get_batch_report. rewrite T, requests_flat_map.
  apply flat_map_singletons. intros d _. apply batch_iteration_requests.
Qed.

(** X12: the first day whose report cannot be fetched or parsed ends the
    batch: the run raises the exception of that day, nothing is
    requested or written for the days after it, and the files of the
    days before it stay as written. *)
Theorem get_batch_report_aborts
  (service : json -> result json) (fs : string -> fs_fault)
  (py_str : json -> string) (view_id : string) (schema : list json)
  (report_name : string) (start_date end_date : date)
  (dimensions metrics : list json) (sampling : string)
  (k : nat) (bad : date) (e : exn)
  (at_k : nth_error (date_range start_date end_date) k = Some bad)
  (before : forall d, In d (firstn k (date_range start_date end_date)) ->
     exists response table,
       outcome (get_report service view_id d dimensions metrics sampling)
         = Ok response /\
       outcome (parse_report response view_id) = Ok table)
  (fails :
     outcome (get_report service view_id bad dimensions metrics sampling)
       = Raise e \/
     exists response,
       outcome (get_report service view_id bad dimensions metrics sampling)
         = Ok response /\
       outcome (parse_report response view_id) = Raise e) :
  let run :=
    get_batch_report service fs py_str view_id schema report_name start_date
      end_date dimensions metrics sampling in
  outcome run = Raise e /\
  trace run
  = flat_map
      (fun d =>
         trace (batch_iteration service fs py_str view_id report_name
                  dimensions metrics sampling d))
      (firstn (S k) (date_range start_date end_date)) /\
  requests (trace run)
  = map (fun d => single_day_request view_id d dimensions metrics sampling)
      (firstn (S k) (date_range start_date end_date)) /\
  (forall path, In (FileOpen path) (trace run) ->
     In path (map (day_file report_name)
                (firstn k (date_range start_date end_date)))).
Proof.
  intros run.
  assert (B : forall d, In d (firstn k (date_range start_date end_date)) ->
            exists file,
              outcome (batch_iteration service fs py_str view_id report_name
                         dimensions metrics sampling d) = Ok file).
  { intros d Hd. destruct (before d Hd) as (response & table & G & P).
    rewrite batch_iteration_outcome. rewrite get_report_run in G.
    cbn [outcome snd] in G. rewrite G. cbn [rbind]. rewrite P.
    cbn [rbind]. eexists. reflexivity. }
  assert (F : outcome (batch_iteration service fs py_str view_id report_name
                         dimensions metrics sampling bad) = Raise e).
  { rewrite batch_iteration_outcome.
    destruct fails as [G | (response & G & P)];
      rewrite get_report_run in G; cbn [outcome snd] in G; rewrite G;
      [reflexivity |]. cbn [rbind]. rewrite P. reflexivity. }
  assert (R : run
              = (flat_map
                   (fun d =>
                      trace (batch_iteration service fs py_str view_id
                               report_name dimensions metrics sampling d))
                   (firstn (S k) (date_range start_date end_date)),
                 Raise e)).
  { unfold run, get_batch_report, date_range.
    eapply batch_loop_abort; eauto. }
  rewrite R. cbn [trace outcome fst snd].
  split; [reflexivity |]. split; [reflexivity |]. split.
  - rewrite requests_flat_map. apply flat_map_singletons.
    intros d _. apply batch_iteration_requests.
  - intros path H. apply in_flat_map in H as (d & Hd & H).
    assert (Sp : firstn (S k) (date_range start_date end_date)
                = firstn k (date_range start_date end_date) ++ [bad]).
    { clear - at_k. revert k at_k.
      induction (date_range start_date end_date) as [| x l IH];
        intros [| k] H; try discriminate.
      - injection H as ->. destruct l; reflexivity.
      - cbn [firstn app]. f_equal. apply IH, H. }
    rewrite Sp in Hd. apply in_app_iff in Hd as [Hd | [<- | []]].
    + destruct (before d Hd) as (response & table & G & P).
      rewrite batch_iteration_run with (response := response) (table := table)
        in H by assumption.
      cbn [trace fst] in H.
      apply in_map_iff. exists d. split; [| exact Hd].
      destruct H as [H | H]; [discriminate |].
      rewrite get_report_run in H. cbn [trace fst app] in H.
      destruct H as [H | [H | H]]; try discriminate.
      apply in_app_iff in H as [H | H].
      * pose proof (parse_report_trace response view_id) as L.
        rewrite Forall_forall in L. destruct (L _ H) as [msg M].
        discriminate.
      * destruct (list_to_csv_file_events fs py_str
                    (day_file report_name d) table "," JNull)
          as (rest & Rs & T).
        rewrite T in H. destruct H as [H | H]; [discriminate |].
        assert (N : ~ In (FileOpen path) rest).
        { intros I. rewrite Forall_forall in Rs. exact (Rs _ I). }
        destruct (fs (day_file report_name d)); simpl in H;
          try (destruct H as [H | H]; [congruence | contradiction]).
        contradiction.
    + exfalso. unfold batch_iteration, log in H. rewrite bind_emit in H.
      cbn [trace fst] in H. destruct H as [H | H]; [discriminate |].
      rewrite trace_bind, get_report_run in H. cbn [trace outcome fst snd] in H.
      destruct H as [H | [H | H]]; try discriminate.
      destruct fails as [G | (response & G & P)];
        rewrite get_report_run in G; cbn [outcome snd] in G; rewrite G in H;
        [contradiction |].
      rewrite trace_bind, P, app_nil_r in H.
      pose proof (parse_report_trace response view_id) as L.
      rewrite Forall_forall in L. destruct (L _ H) as [msg M]. discriminate.
Qed.

(** ** File names *)

Lemma string_length_app (a b : string) :
  String.length (a ++ b) = (String.length a + String.length b)%nat.
Proof. induction a as [| c a IH]; simpl; [| rewrite IH]; reflexivity. Qed.

Lemma string_app_inv_head (a b c : string) :
  (a ++ b = a ++ c)%string -> b = c.
Proof. induction a as [| x a IH]; simpl; [auto |]. intros [= E]. auto. Qed.

Lemma string_app_inj (a a' b b' : string) :
  String.length a = String.length a' ->
  (a ++ b = a' ++ b')%string -> a = a' /\ b = b'.
Proof.
  revert a'. induction a as [| x a IH]; intros [| y a']; simpl;
    try discriminate; [auto |].
  intros [= L] [= -> E]. destruct (IH _ L E) as [-> ->]. auto.
Qed.

Lemma zero_pad_length (width : nat) : forall n,
  String.length (zero_pad width n) = width.
Proof.
  induction width as [| w IH]; intros n; simpl; [reflexivity |].
  rewrite string_length_app, IH. simpl. lia.
Qed.

Lemma digit_char_inj (n m : Z) :
  0 <= n < 10 -> 0 <= m < 10 -> digit_char n = digit_char m -> n = m.
Proof.
  unfold digit_char. intros Bn Bm E.
  apply (f_equal nat_of_ascii) in E.
  rewrite !nat_ascii_embedding in E by lia. lia.
Qed.

Lemma zero_pad_inj (width : nat) : forall n m,
  0 <= n < 10 ^ Z.of_nat width -> 0 <= m < 10 ^ Z.of_nat width ->
  zero_pad width n = zero_pad width m -> n = m.
Proof.
  induction width as [| w IH]; intros n m Bn Bm.
  - simpl in *. lia.
  - rewrite Nat2Z.inj_succ, Z.pow_succ_r in Bn, Bm by lia.
    cbn [zero_pad]. intros E.
    apply string_app_inj in E as [E1 E2];
      [| rewrite !zero_pad_length; reflexivity].
    injection E2 as E2.
    apply digit_char_inj in E2; try (apply Z.mod_pos_bound; lia).
    apply IH in E1; try (split; [apply Z.div_pos | apply Z.div_lt_upper_bound];
                         lia).
    rewrite (Z.div_mod n 10), (Z.div_mod m 10) by lia. congruence.
Qed.

Lemma days_in_month_le_31 (y m : Z) : days_in_month y m <= 31.
Proof.
  unfold days_in_month.
  destruct m as [| p | p]; try lia.
  repeat (destruct p as [p | p |]; try lia); destruct (is_leap y); lia.
Qed.

Lemma string_app_inv_tail (a b c : string) :
  (a ++ c = b ++ c)%string -> a = b.
Proof.
  intros E. apply string_app_inj in E as [E _]; [exact E |].
  apply (f_equal String.length) in E.
  rewrite !string_length_app in E. lia.
Qed.

Lemma year_width_bound (y : Z) :
  1 <= y <= 9999 -> 0 <= y < 10 ^ Z.of_nat (year_width y).
Proof.
  intros B. unfold year_width.
  destruct (Z.ltb_spec y 10); [simpl; lia |].
  destruct (Z.ltb_spec y 100); [simpl; lia |].
  destruct (Z.ltb_spec y 1000); simpl; lia.
Qed.

(** Different days have different stamps: the month and the day take the
    last four characters, the year the ones before. *)
Lemma strftime_compact_inj (d d' : date) :
  strftime d "%Y%m%d" = strftime d' "%Y%m%d" -> d = d'.
Proof.
  pose proof (date_bounds d) as (By & Bm & Bd).
  pose proof (date_bounds d') as (By' & Bm' & Bd').
  pose proof (days_in_month_le_31 (year d) (month d)).
  pose proof (days_in_month_le_31 (year d') (month d')).
  cbn [strftime]. intros E.
  assert (W : year_width (year d) = year_width (year d')).
  { apply (f_equal String.length) in E.
    rewrite !string_length_app, !zero_pad_length in E. lia. }
  apply string_app_inj in E as [Ey E];
    [| rewrite !zero_pad_length; exact W].
  apply string_app_inj in E as [Em E];
    [| rewrite !zero_pad_length; reflexivity].
  apply string_app_inj in E as [Ed _];
    [| rewrite !zero_pad_length; reflexivity].
  rewrite <- W in Ey.
  apply zero_pad_inj in Ey;
    [| apply year_width_bound; lia | rewrite W; apply year_width_bound; lia].
  apply zero_pad_inj in Em; [| simpl; lia | simpl; lia].
  apply zero_pad_inj in Ed; [| simpl; lia | simpl; lia].
  apply date_ext; assumption.
Qed.

Lemma day_file_inj (report_name : string) (d d' : date) :
  day_file report_name d = day_file report_name d' -> d = d'.
Proof.
  unfold day_file. intros E.
  apply string_app_inv_head in E. apply string_app_inv_head in E.
  apply string_app_inv_head in E.
  apply string_app_inv_tail in E.
  apply strftime_compact_inj, E.
Qed.

Lemma files_opened_app (t t' : list event) :
  files_opened (t ++ t') = files_opened t ++ files_opened t'.
Proof. apply flat_map_app. Qed.

Section FileNames.

Variable service : json -> result json.
Variable fs : string -> fs_fault.
Variable py_str : json -> string.
Variables view_id report_name : string.
Variables dimensions metrics : list json.
Variable sampling : string.

(** A turn opens the file of its day or no file. *)
Lemma batch_iteration_opens (d : date) :
  files_opened
    (trace (batch_iteration service fs py_str view_id report_name dimensions
              metrics sampling d)) = [] \/
  files_opened
    (trace (batch_iteration service fs py_str view_id report_name dimensions
              metrics sampling d)) = [day_file report_name d].
Proof.
  unfold batch_iteration, log. rewrite bind_emit. cbn [trace fst].
  rewrite trace_bind, get_report_run. cbn [trace outcome fst snd].
  fold (day_file report_name d).
  match goal with
  | |- files_opened (?a :: [?b; ?c] ++ ?t) = _ \/ _ =>
      change (files_opened (a :: [b; c] ++ t)) with (files_opened t)
  end.
  destruct (service _) as [response | e]; [| left; reflexivity].
  rewrite trace_bind, files_opened_app.
  assert (P : files_opened (trace (parse_report response view_id)) = []).
  { apply flat_map_nil. eapply Forall_impl; [| apply parse_report_trace].
    intros ev (msg & ->). reflexivity. }
  rewrite P. cbn [app].
  destruct (outcome (parse_report response view_id)) as [table | e];
    [| left; reflexivity].
  destruct (list_to_csv_file_events fs py_str (day_file report_name d) table
              "," JNull) as (rest & R & ->).
  assert (N : files_opened rest = []).
  { apply flat_map_nil. eapply Forall_impl; [| exact R].
    intros [] H; try reflexivity; contradiction. }
  destruct (fs (day_file report_name d)); cbn [files_opened flat_map app];
    fold (files_opened rest); rewrite N; auto.
Qed.

Lemma batch_loop_opens (end_date : date) (n : nat) :
  forall current_date : date,
    n = Z.to_nat (toordinal end_date + 1 - toordinal current_date) ->
    NoDup (files_opened
             (trace (batch_loop service fs py_str view_id report_name
                       end_date dimensions metrics sampling current_date))) /\
    forall path,
      In path
        (files_opened
           (trace (batch_loop service fs py_str view_id report_name end_date
                     dimensions metrics sampling current_date))) ->
      exists d,
        toordinal current_date <= toordinal d <= toordinal end_date /\
        path = day_file report_name d.
Proof.
  induction n as [| n IH]; intros cur N; rewrite batch_loop_step;
    destruct (date_leb cur end_date) eqn:R;
    try (split; [constructor | intros p []]).
  - apply date_leb_toordinal in R. lia.
  - apply date_leb_toordinal in R.
    rewrite trace_bind, files_opened_app.
    assert (T : forall tail,
              (NoDup (files_opened tail) /\
               forall path, In path (files_opened tail) ->
                 exists d, toordinal cur < toordinal d <= toordinal end_date /\
                           path = day_file report_name d) ->
              NoDup (files_opened
                       (trace (batch_iteration service fs py_str view_id
                                 report_name dimensions metrics sampling cur))
                     ++ files_opened tail) /\
              forall path,
                In path (files_opened
                           (trace (batch_iteration service fs py_str view_id
                                     report_name dimensions metrics sampling
                                     cur))
                         ++ files_opened tail) ->
                exists d, toordinal cur <= toordinal d <= toordinal end_date /\
                          path = day_file report_name d).
    { intros tail [ND Hp].
      destruct (batch_iteration_opens cur) as [-> | ->]; cbn [app].
      - split; [exact ND |]. intros p Hi.
        destruct (Hp p Hi) as (d & B & E). exists d. split; [lia | exact E].
      - split.
        + constructor; [| exact ND]. intros Hi.
          destruct (Hp _ Hi) as (d & B & E).
          apply day_file_inj in E. subst d. lia.
        + intros p [<- | Hi].
          * exists cur. split; [lia | reflexivity].
          * destruct (Hp p Hi) as (d & B & E). exists d.
            split; [lia | exact E]. }
    apply T.
    destruct (outcome (batch_iteration _ _ _ _ _ _ _ _ cur));
      [| split; [constructor | intros p []]].
    destruct (add_one_day cur) as [next | e] eqn:E;
      [| split; [constructor | intros p []]].
    pose proof (toordinal_add_one_day _ E) as O.
    destruct (IH next) as [ND Hp]; [lia |].
    split; [exact ND |]. intros p Hi.
    destruct (Hp p Hi) as (d & B & Ed). exists d. split; [lia | exact Ed].
Qed.

(** X13: no file is opened twice in a batch run, whatever the answers of
    the service and the state of the files: every file opened is the
    file of a day of the range, and different days have different
    files, so that no day overwrites the file of another. *)
Theorem get_batch_report_opens_once (schema : list json)
  (start_date end_date : date) :
  NoDup (files_opened
           (trace (get_batch_report service fs py_str view_id schema
                     report_name start_date end_date dimensions metrics
                     sampling))) /\
  forall path,
    In path
      (files_opened
         (trace (get_batch_report service fs py_str view_id schema report_name
                   start_date end_date dimensions metrics sampling))) ->
    exists d,
      toordinal start_date <= toordinal d <= toordinal end_date /\
      path = ("./files/" ++ report_name ++ "_" ++ strftime d "%Y%m%d"
              ++ ".csv")%string.
Proof. unfold get_batch_report. eapply batch_loop_opens. reflexivity. Qed.

End FileNames.

(** ** Edges *)

(** X14: a range whose end lies before its start is not an error: the
    batch fetches nothing, writes nothing, logs nothing and returns. *)
Theorem get_batch_report_reversed_range
  (service : json -> result json) (fs : string -> fs_fault)
  (py_str : json -> string) (view_id : string) (schema : list json)
  (report_name : string) (start_date end_date : date)
  (dimensions metrics : list json) (sampling : string)
  (reversed : toordinal end_date < toordinal start_date) :
  get_batch_report service fs py_str view_id schema report_name start_date
    end_date dimensions metrics sampling
  = ([], Ok tt).
Proof.
  unfold get_batch_report. rewrite batch_loop_step.
  destruct (date_leb start_date end_date) eqn:R; [| reflexivity].
  apply date_leb_toordinal in R. lia.
Qed.

(** X15: over a range with start <= end whose daily reports are fetched
    and parsed, the batch runs the turn of every day of the range, each
    returning the name of its file, and then returns normally, except
    when the range ends on 9999-12-31: there, after the turns of all
    days, the run raises [OverflowError], from the increment of the date
    after the last turn. *)
Theorem get_batch_report_outcome
  (service : json -> result json) (fs : string -> fs_fault)
  (py_str : json -> string) (view_id : string) (schema : list json)
  (report_name : string) (start_date end_date : date)
  (dimensions metrics : list json) (sampling : string)
  (ordered : date_leb start_date end_date = true)
  (fetched : forall d, In d (date_range start_date end_date) ->
     exists response table,
       outcome (get_report service view_id d dimensions metrics sampling)
         = Ok response /\
       outcome (parse_report response view_id) = Ok table) :
  let run :=
    get_batch_report service fs py_str view_id schema report_name start_date
      end_date dimensions metrics sampling in
  trace run
  = flat_map
      (fun d =>
         trace (batch_iteration service fs py_str view_id report_name
                  dimensions metrics sampling d))
      (date_range start_date end_date) /\
  (forall d, In d (date_range start_date end_date) ->
     outcome (batch_iteration service fs py_str view_id report_name
                dimensions metrics sampling d)
     = Ok (day_file report_name d)) /\
  date_range start_date end_date <> [] /\
  outcome run
  = if date_leb date_max end_date then Raise OverflowError else Ok tt.
Proof.
  intros run.
  assert (I : forall d, In d (date_range start_date end_date) ->
              outcome (batch_iteration service fs py_str view_id report_name
                         dimensions metrics sampling d)
              = Ok (day_file report_name d)).
  { intros d Hd. destruct (fetched d Hd) as (response & table & G & P).
    rewrite batch_iteration_outcome. rewrite get_report_run in G.
    cbn [outcome snd] in G. rewrite G. cbn [rbind]. rewrite P.
    reflexivity. }
  destruct (@batch_loop_run service fs py_str view_id report_name end_date
              dimensions metrics sampling _ start_date eq_refl
              (fun d Hd => ex_intro _ _ (I d Hd)))
    as [T O].
  split; [exact T |]. split; [exact I |].
  apply date_leb_toordinal in ordered.
  unfold run, get_batch_report, date_range. rewrite O.
  destruct (Z.to_nat (toordinal end_date + 1 - toordinal start_date)) eqn:N;
    [lia |].
  split; [discriminate |].
  pose proof (toordinal_le_max end_date) as Le.
  destruct (date_leb date_max end_date) eqn:L.
  - apply date_leb_toordinal in L.
    assert (end_date = date_max) as -> by (apply toordinal_inj; lia).
    reflexivity.
  - assert (toordinal end_date < toordinal date_max) as Lt.
    { destruct (Z_lt_ge_dec (toordinal end_date) (toordinal date_max))
        as [Lt | Ge]; [exact Lt |].
      assert (date_leb date_max end_date = true)
        by (apply date_leb_toordinal; lia).
      congruence. }
    apply add_one_day_defined in Lt as [next ->]. reflexivity.
Qed.

(** X16: an empty table gives an empty file, with or without extraction
    date: the file is opened and closed, nothing is written (no header)
    and nothing is raised, [content[0]] being read inside the loop
    only. *)
Theorem list_to_csv_file_empty_table (fs : string -> fs_fault)
  (py_str : json -> string) (filename : string) (delimiter : ascii)
  (extraction_date : json) (ok : fs filename = NoFault) :
  list_to_csv_file fs py_str filename [] (String delimiter EmptyString)
    extraction_date
  = ([Log INFO ("[GAUtils.download] saving report to " ++ filename);
      FileOpen filename; FileClose filename],
     Ok filename).
Proof.
  unfold list_to_csv_file, write_csv, log, open_w, csv_writer, writerows.
  fold error_message. rewrite bind_emit, ok, bind_emit, bind_ret.
  unfold file_close. rewrite ok.
  destruct extraction_date; reflexivity.
Qed.

(** X17: an entry of [metricHeaderEntries] without the "name" key makes
    [parse_report] raise: the name is read without default and [None]
    has no [replace]. *)
Theorem parse_report_metric_without_name
  (fields report header metric_header entry : list (string * json))
  (others entries : list json) (view_id : string)
  (first : dict_lookup fields "reports"
           = Some (JList (JDict report :: others)))
  (has_header : field_or report "columnHeader" (JDict []) = JDict header)
  (has_metrics : field_or header "metricHeader" (JDict [])
                 = JDict metric_header)
  (has_entries : field_or metric_header "metricHeaderEntries" (JList [])
                 = JList entries)
  (member : In (JDict entry) entries)
  (missing : dict_lookup entry "name" = None) :
  exists e, outcome (parse_report (JDict fields) view_id) = Raise e.
Proof.
  unfold parse_report, first_report. rewrite py_get_dict.
  unfold field_or at 1. rewrite first. cbn [rbind py_first].
  rewrite (bind_lift_ok _ eq_refl). unfold log. rewrite bind_emit.
  cbn [outcome snd lift]. unfold report_table.
  rewrite py_get_dict, has_header. cbn [rbind].
  apply rbind_raises; intros dims.
  rewrite py_get_dict, has_metrics. cbn [rbind].
  rewrite py_get_dict, has_entries. cbn [rbind].
  apply rbind_raises; intros names. cbn [py_iter rbind].
  apply rbind_raises_now.
  eapply rmap_raises; [exact member |].
  unfold py_get. rewrite missing. simpl. eauto.
Qed.

(** ** Default arguments *)

(** The defaults of [dimensions], [metrics] and [sampling] in the
    signatures of [get_report] and [get_batch_report]. *)
Definition default_dimensions : list json :=
  [JDict [("name", JStr "ga:country")]].
Definition default_metrics : list json :=
  [JDict [("expression", JStr "ga:sessions")]].
Definition default_sampling : string := "LARGE".

(** X18: the default dimensions and metrics are objects, which
    [get_report] wraps like identifiers: with the defaults the request
    asks for the dimension whose name is the object
    {"name": "ga:country"} and for the metric whose expression is the
    object {"expression": "ga:sessions"}. *)
Theorem get_report_wraps_defaults (service : json -> result json)
  (view_id : string) (report_date : date) :
  exists request,
    requests (trace (get_report service view_id report_date
                       default_dimensions default_metrics default_sampling))
      = [JDict [("reportRequests", JList [request])]] /\
    py_get request "dimensions" JNull
      = Ok (JList [JDict [("name", JDict [("name", JStr "ga:country")])]]) /\
    py_get request "metrics" JNull
      = Ok (JList
              [JDict [("expression",
                       JDict [("expression", JStr "ga:sessions")])]]) /\
    py_get request "samplingLevel" JNull = Ok (JStr "LARGE").
Proof. eexists. split; [reflexivity | repeat split]. Qed.

(** ** Sample inputs for the further properties *)

Lemma list_to_csv_file_plain_witness :
  no_faults "out.csv" = NoFault /\
  list_to_csv_file no_faults blank_str "out.csv"
    (map JList [[JStr "country"; JStr "view_id"]; [JStr "US"; JStr "1"]])
    "," JNull
  = ([Log INFO "[GAUtils.download] saving report to out.csv";
      FileOpen "out.csv";
      FileWrite "out.csv" (csv_line "," ["country"; "view_id"]);
      FileWrite "out.csv" (csv_line "," ["US"; "1"]);
      FileClose "out.csv"],
     Ok "out.csv").
Proof.
  split; [reflexivity |].
  exact (@list_to_csv_file_plain no_faults blank_str "out.csv"
           [[JStr "country"; JStr "view_id"]; [JStr "US"; JStr "1"]] ","
           eq_refl).
Defined.

Lemma extraction_date_column_witness :
  no_faults "out.csv" = NoFault /\
  Forall (fun r => r <> ["country"; "view_id"]) [["US"; "1"]] /\
  trace (list_to_csv_file no_faults blank_str "out.csv"
           (map string_row [["country"; "view_id"]; ["US"; "1"]]) ","
           (JStr "2024-01-01"))
  = [Log INFO "[GAUtils.download] saving report to out.csv";
     FileOpen "out.csv";
     FileWrite "out.csv"
       (csv_line "," ["Extraction Date"; "country"; "view_id"]);
     FileWrite "out.csv" (csv_line "," ["2024-01-01"; "US"; "1"]);
     FileClose "out.csv"].
Proof.
  assert (D : Forall (fun r => r <> ["country"; "view_id"]) [["US"; "1"]])
    by (repeat constructor; discriminate).
  split; [reflexivity |]. split; [exact D |].
  exact (@extraction_date_column no_faults blank_str "out.csv"
           ["country"; "view_id"] [["US"; "1"]] "," "2024-01-01" eq_refl D).
Defined.

Lemma list_to_csv_file_bad_delimiter_witness :
  no_faults "out.csv" <> OpenFails /\
  String.length "::" <> 1%nat /\
  list_to_csv_file no_faults blank_str "out.csv" [string_row ["a"]] "::"
    JNull
  = ([Log INFO "[GAUtils.download] saving report to out.csv";
      FileOpen "out.csv";
      LogException error_message TypeError],
     Ok "out.csv").
Proof.
  assert (O : no_faults "out.csv" <> OpenFails) by discriminate.
  assert (B : String.length "::" <> 1%nat) by discriminate.
  split; [exact O |]. split; [exact B |].
  exact (@list_to_csv_file_bad_delimiter no_faults blank_str "out.csv"
           [string_row ["a"]] "::" JNull O B).
Defined.

Lemma list_to_csv_file_stops_at_bad_row_witness :
  no_faults "out.csv" = NoFault /\
  py_iter (JNum 7) = Raise TypeError /\
  list_to_csv_file no_faults blank_str "out.csv"
    (map JList [[JStr "a"]] ++ JNum 7 :: [JList [JStr "b"]]) "," JNull
  = ([Log INFO "[GAUtils.download] saving report to out.csv";
      FileOpen "out.csv";
      FileWrite "out.csv" (csv_line "," ["a"]);
      LogException error_message CsvError],
     Ok "out.csv").
Proof.
  split; [reflexivity |]. split; [reflexivity |].
  exact (@list_to_csv_file_stops_at_bad_row no_faults blank_str "out.csv"
           [[JStr "a"]] (JNum 7) [JList [JStr "b"]] "," TypeError
           eq_refl eq_refl).
Defined.

Lemma list_to_csv_file_faithful_witness :
  no_faults "out.csv" = NoFault /\
  ","%char <> quote_char /\
  [["a,b"; "c"]] = [["a,b"; "c"]].
Proof.
  assert (S : ","%char <> quote_char) by discriminate.
  split; [reflexivity |]. split; [exact S |].
  exact (@list_to_csv_file_faithful no_faults blank_str "out.csv"
           [["a,b"; "c"]] [["a,b"; "c"]] "," eq_refl S eq_refl).
Defined.

(** The answer to a query for sessions without dimensions. *)
Definition sessions_only_response : json :=
  JDict
    [("reports",
      JList
        [JDict
           [("columnHeader",
             JDict
               [("metricHeader",
                 JDict
                   [("metricHeaderEntries",
                     JList [JDict [("name", JStr "ga:sessions");
                                   ("type", JStr "INTEGER")]])])]);
            ("data",
             JDict
               [("rows",
                 JList
                   [JDict
                      [("metrics",
                        JList [JDict [("values", JList [JStr "42"])]])]])])]])].

Lemma parse_report_row_without_dimensions_witness :
  exists e,
    outcome (parse_report sessions_only_response "12345678") = Raise e.
Proof.
  eapply parse_report_row_without_dimensions;
    [reflexivity | reflexivity | reflexivity | left; reflexivity
    | reflexivity].
Defined.

Lemma parse_report_reads_header_and_data_witness :
  parse_report country_sessions_response "12345678"
  = parse_report
      (JDict
         [("reports",
           JList
             [JDict
                [("nextPageToken", JStr "100000");
                 ("data",
                  JDict
                    [("rows",
                      JList
                        [JDict [("dimensions", JList [JStr "US"]);
                                ("metrics",
                                 JList
                                   [JDict
                                      [("values", JList [JStr "42"])]])]]);
                     ("rowCount", JNum 1)]);
                 ("columnHeader",
                  JDict
                    [("dimensions", JList [JStr "ga:country"]);
                     ("metricHeader",
                      JDict
                        [("metricHeaderEntries",
                          JList [JDict [("name", JStr "ga:sessions");
                                        ("type", JStr "INTEGER")]])])])];
              JDict []])])
      "12345678".
Proof.
  eapply parse_report_reads_header_and_data; reflexivity.
Defined.

Lemma parse_report_table_invariant_witness :
  outcome (parse_report country_sessions_response "12345678")
    = Ok [JList [JStr "country"; JStr "sessions"; JStr "view_id"];
          JList [JStr "US"; JStr "42"; JStr "12345678"]] /\
  exists (names : list string) (body : list (list json)),
    [JList [JStr "country"; JStr "sessions"; JStr "view_id"];
     JList [JStr "US"; JStr "42"; JStr "12345678"]]
    = JList (map JStr names ++ [JStr "view_id"])
      :: map (fun cells => JList (cells ++ [JStr "12345678"])) body.
Proof.
  split; [reflexivity |].
  exact (@parse_report_table_invariant country_sessions_response "12345678"
           _ eq_refl).
Defined.

Lemma get_batch_report_requests_witness :
  date_leb date_2024_01_01 date_2024_01_03 = true /\
  requests (trace sample_run)
  = map (fun d =>
           single_day_request "12345678" d [JStr "ga:country"]
             [JStr "ga:sessions"] "LARGE")
      [date_2024_01_01; date_2024_01_02; date_2024_01_03].
Proof.
  split; [reflexivity |].
  exact (@get_batch_report_requests
           (fixed_service country_sessions_response) no_faults blank_str
           "12345678" [] "sessions" date_2024_01_01 date_2024_01_03
           [JStr "ga:country"] [JStr "ga:sessions"] "LARGE" eq_refl
           (fun d _ => sample_run_fetched d)).
Defined.

(** A service that is down for the report of 2024-01-02. *)
Definition outage_service : json -> result json :=
  fun body =>
    if py_eq body
         (single_day_request "12345678" date_2024_01_02 [JStr "ga:country"]
            [JStr "ga:sessions"] "LARGE")
    then Raise (HttpError "503")
    else Ok country_sessions_response.

Lemma get_batch_report_aborts_witness :
  nth_error (date_range date_2024_01_01 date_2024_01_03) 1
    = Some date_2024_01_02 /\
  outcome (get_report outage_service "12345678" date_2024_01_02
             [JStr "ga:country"] [JStr "ga:sessions"] "LARGE")
    = Raise (HttpError "503") /\
  outcome (get_batch_report outage_service no_faults blank_str "12345678" []
             "sessions" date_2024_01_01 date_2024_01_03 [JStr "ga:country"]
             [JStr "ga:sessions"] "LARGE")
    = Raise (HttpError "503") /\
  requests
    (trace (get_batch_report outage_service no_faults blank_str "12345678" []
              "sessions" date_2024_01_01 date_2024_01_03 [JStr "ga:country"]
              [JStr "ga:sessions"] "LARGE"))
  = map (fun d =>
           single_day_request "12345678" d [JStr "ga:country"]
             [JStr "ga:sessions"] "LARGE")
      [date_2024_01_01; date_2024_01_02].
Proof.
  assert (B : forall d,
             In d (firstn 1 (date_range date_2024_01_01 date_2024_01_03)) ->
             exists response table,
               outcome (get_report outage_service "12345678" d
                          [JStr "ga:country"] [JStr "ga:sessions"] "LARGE")
                 = Ok response /\
               outcome (parse_report response "12345678") = Ok table).
  { intros d [<- | []]. exists country_sessions_response. eexists.
    split; reflexivity. }
  destruct (@get_batch_report_aborts outage_service no_faults blank_str
              "12345678" [] "sessions" date_2024_01_01 date_2024_01_03
              [JStr "ga:country"] [JStr "ga:sessions"] "LARGE" 1
              date_2024_01_02 (HttpError "503") eq_refl B
              (or_introl eq_refl))
    as (O & _ & R & _).
  split; [reflexivity |]. split; [reflexivity |].
  split; [exact O | exact R].
Defined.

Lemma get_batch_report_reversed_range_witness :
  toordinal date_2024_01_01 < toordinal date_2024_01_03 /\
  get_batch_report (fixed_service country_sessions_response) no_faults
    blank_str "12345678" [] "sessions" date_2024_01_03 date_2024_01_01
    [JStr "ga:country"] [JStr "ga:sessions"] "LARGE"
  = ([], Ok tt).
Proof.
  assert (L : toordinal date_2024_01_01 < toordinal date_2024_01_03)
    by reflexivity.
  split; [exact L |].
  exact (@get_batch_report_reversed_range
           (fixed_service country_sessions_response) no_faults blank_str
           "12345678" [] "sessions" date_2024_01_03 date_2024_01_01
           [JStr "ga:country"] [JStr "ga:sessions"] "LARGE" L).
Defined.

Lemma get_batch_report_outcome_witness :
  date_leb (mkdate 9999 12 30 eq_refl) date_max = true /\
  files_opened
    (trace (get_batch_report (fixed_service country_sessions_response)
              no_faults blank_str "12345678" [] "sessions"
              (mkdate 9999 12 30 eq_refl) date_max [JStr "ga:country"]
              [JStr "ga:sessions"] "LARGE"))
  = ["./files/sessions_99991230.csv"; "./files/sessions_99991231.csv"] /\
  outcome (get_batch_report (fixed_service country_sessions_response)
             no_faults blank_str "12345678" [] "sessions"
             (mkdate 9999 12 30 eq_refl) date_max [JStr "ga:country"]
             [JStr "ga:sessions"] "LARGE")
  = Raise OverflowError /\
  outcome sample_run = Ok tt.
Proof.
  destruct (@get_batch_report_outcome
              (fixed_service country_sessions_response) no_faults blank_str
              "12345678" [] "sessions" (mkdate 9999 12 30 eq_refl) date_max
              [JStr "ga:country"] [JStr "ga:sessions"] "LARGE" eq_refl
              (fun d _ => sample_run_fetched d))
    as (T & _ & _ & O).
  destruct (@get_batch_report_outcome
              (fixed_service country_sessions_response) no_faults blank_str
              "12345678" [] "sessions" date_2024_01_01 date_2024_01_03
              [JStr "ga:country"] [JStr "ga:sessions"] "LARGE" eq_refl
              (fun d _ => sample_run_fetched d))
    as (_ & _ & _ & O').
  split; [reflexivity |]. split; [rewrite T; reflexivity |].
  split; [exact O | exact O'].
Defined.

Lemma list_to_csv_file_empty_table_witness :
  no_faults "out.csv" = NoFault /\
  list_to_csv_file no_faults blank_str "out.csv" [] ","
    (JStr "2024-01-01")
  = ([Log INFO "[GAUtils.download] saving report to out.csv";
      FileOpen "out.csv"; FileClose "out.csv"],
     Ok "out.csv").
Proof.
  split; [reflexivity |].
  exact (@list_to_csv_file_empty_table no_faults blank_str "out.csv" ","
           (JStr "2024-01-01") eq_refl).
Defined.

Lemma parse_report_metric_without_name_witness :
  exists e,
    outcome
      (parse_report
         (JDict
            [("reports",
              JList
                [JDict
                   [("columnHeader",
                     JDict
                       [("metricHeader",
                         JDict
                           [("metricHeaderEntries",
                             JList [JDict [("type", JStr "INTEGER")]])])])]])])
         "12345678")
    = Raise e.
Proof.
  eapply parse_report_metric_without_name;
    [reflexivity | reflexivity | reflexivity | reflexivity
    | left; reflexivity | reflexivity].
Defined.

(** ** The answer to a query without dimensions *)

(** C1 at the answer to a query for sessions without dimensions: the
    response has one report, whose row holds no dimension value and the
    values of its first metric-value set; the table would be the header
    ["sessions"; "view_id"] and the row ["42"; view id], but
    [row.get("dimensions")] is [None] and the sum with the metric values
    raises [TypeError] after the log line, whatever the view id. *)
Theorem parse_report_metric_only_response (view_id : string) :
  parse_report sessions_only_response view_id
  = ([Log INFO "[GAUtils.get_report] parsing report"], Raise TypeError).
Proof. reflexivity. Qed.

(** C2 at the same response, which is valid by the counts: no dimension
    column and one metric column in the header, no dimension value and
    one metric value in its only row; no table comes out of it, so
    neither the header nor the row has the length of the claim. *)
Theorem metric_only_response_gives_no_table (view_id : string) :
  exists report header metric_header data row set0,
    first_report sessions_only_response = Ok (JDict report) /\
    dict_lookup report "columnHeader" = Some (JDict header) /\
    field_or header "dimensions" (JList []) = JList [] /\
    dict_lookup header "metricHeader" = Some (JDict metric_header) /\
    dict_lookup metric_header "metricHeaderEntries"
      = Some (JList [JDict [("name", JStr "ga:sessions");
                            ("type", JStr "INTEGER")]]) /\
    dict_lookup report "data" = Some (JDict data) /\
    dict_lookup data "rows" = Some (JList [JDict row]) /\
    dict_lookup row "dimensions" = None /\
    dict_lookup row "metrics" = Some (JList [JDict set0]) /\
    dict_lookup set0 "values" = Some (JList [JStr "42"]) /\
    outcome (parse_report sessions_only_response view_id) = Raise TypeError.
Proof. do 6 eexists. repeat split; reflexivity. Qed.
